(** * migrate_levels.py: the legacy levels document to SQLite migration

    A shallow embedding of [migrate_levels] (src/migrate_levels.py) and the
    properties of its specification.

    - [Py]: the Python values [json.load] produces, and the builtins the
      script calls on them ([dict.get], [dict.pop], [int], truthiness,
      [json.dumps]).
    - [Sqlite]: the two tables of the script's schema, parameter binding,
      the NOT NULL handling of [INSERT OR REPLACE], and the connection with
      its implicit transaction.
    - the script itself, in a monad that records what the run prints and
      which statements it sends to the connection, and that stops at the
      first uncaught exception, and its command line.

    The database file is taken to be one [sqlite3.connect] opens, whose
    tables, where they exist already, have the columns of the script's
    schema. *)

From Stdlib Require Import ZArith List String Ascii Lia DecimalString DecimalPos.
From stdpp Require Import gmap strings.
Import ListNotations.

Set Warnings "-register-all".

Open Scope string_scope.
Open Scope Z_scope.

(* ===================================================================== *)
(** * Python values and builtins *)
(* ===================================================================== *)

Module Py.

(** A [str] is a sequence of code points; the model keeps the code points
    below 256, one per [ascii]. *)

(** A [float], by the shortest decimal that [repr] prints for it:
    [digits * 10 ^ exp10], [digits] without a trailing zero. *)
Inductive pyfloat :=
| FNan
| FInf (negative : bool)
| FDec (negative : bool) (digits : N) (exp10 : Z).

(** What [json.load] returns. A [dict] keeps its items in insertion order,
    each key once; the keys of a loaded document are always [str]. *)
Inductive json :=
| JNull
| JBool (b : bool)
| JInt (z : Z)
| JFloat (f : pyfloat)
| JStr (s : string)
| JList (l : list json)
| JDict (d : list (string * json)).

Definition is_dict (v : json) : bool :=
  match v with JDict _ => true | _ => false end.

Definition is_list (v : json) : bool :=
  match v with JList _ => true | _ => false end.

(** [bool(v)], as in [if daily_goal:]. *)
Definition truthy (v : json) : bool :=
  match v with
  | JNull => false
  | JBool b => b
  | JInt z => negb (z =? 0)
  | JFloat FNan => true
  | JFloat (FInf _) => true
  | JFloat (FDec _ m _) => negb (m =? 0)%N
  | JStr s => negb (String.eqb s "")
  | JList l => match l with [] => false | _ => true end
  | JDict d => match d with [] => false | _ => true end
  end.

(** ** dict *)

Fixpoint dict_get (key : string) (d : list (string * json)) : option json :=
  match d with
  | [] => None
  | (k, v) :: d' => if String.eqb k key then Some v else dict_get key d'
  end.

(** [d.get(key, default)] *)
Definition get (d : list (string * json)) (key : string) (default : json) : json :=
  match dict_get key d with
  | Some v => v
  | None => default
  end.

(** The items left in [d] by [d.pop(key, ...)]. *)
Definition dict_del (key : string) (d : list (string * json)) : list (string * json) :=
  List.filter (fun kv => negb (String.eqb (fst kv) key)) d.

(** ** int(s) for a str

    Surrounding whitespace is dropped, then an optional sign, then decimal
    digits, where one underscore may stand between two digits. *)

Definition is_space (c : ascii) : bool :=
  let n := N_of_ascii c in
  ((9 <=? n) && (n <=? 13) || (n =? 32) || (n =? 133) || (n =? 160))%N.

Definition digit_of (c : ascii) : option Z :=
  let n := Z.of_N (N_of_ascii c) in
  if (48 <=? n) && (n <=? 57) then Some (n - 48) else None.

Fixpoint lstrip (s : string) : string :=
  match s with
  | String c s' => if is_space c then lstrip s' else s
  | EmptyString => s
  end.

(** The digits after the first one. [after_digit] tells whether the previous
    character was a digit (an underscore needs a digit on both sides); the
    number ends at the end of the string or at whitespace that runs to the
    end of the string. *)
Fixpoint int_digits (s : string) (acc : Z) (after_digit : bool) : option Z :=
  match s with
  | EmptyString => if after_digit then Some acc else None
  | String c s' =>
      match digit_of c with
      | Some d => int_digits s' (10 * acc + d) true
      | None =>
          if after_digit then
            if Ascii.eqb c "_" then int_digits s' acc false
            else if String.eqb (lstrip s) "" then Some acc
            else None
          else None
      end
  end.

Definition int_unsigned (s : string) : option Z :=
  match s with
  | String c _ =>
      match digit_of c with
      | Some _ => int_digits s 0 false
      | None => None
      end
  | EmptyString => None
  end.

(** [Some n] when [int(s)] is [n], [None] when it raises [ValueError]. *)
Definition py_int (s : string) : option Z :=
  match lstrip s with
  | String "-" s' => option_map Z.opp (int_unsigned s')
  | String "+" s' => int_unsigned s'
  | s' => int_unsigned s'
  end.

(** ** json.dumps, with its default arguments *)

Definition int_repr (z : Z) : string :=
  NilZero.string_of_int (Z.to_int z).

Definition nat_repr (n : nat) : string :=
  NilZero.string_of_uint (Nat.to_uint n).

Fixpoint zeros (n : nat) : string :=
  match n with
  | O => ""
  | S n' => String "0" (zeros n')
  end.

Fixpoint take (n : nat) (s : string) : string :=
  match n, s with
  | S n', String c s' => String c (take n' s')
  | _, _ => ""
  end.

Fixpoint drop (n : nat) (s : string) : string :=
  match n, s with
  | S n', String _ s' => drop n' s'
  | _, _ => s
  end.

(** The exponent of [repr]: a sign and at least two digits. *)
Definition exp_repr (e : Z) : string :=
  let a := int_repr (Z.abs e) in
  (if e <? 0 then "-" else "+")
  +:+ (if (String.length a <? 2)%nat then "0" +:+ a else a).

(** [repr] of a finite float, without its sign: exponent notation when the
    decimal point would fall more than 16 digits to the right of the first
    digit or 4 or more zeros to its left. *)
Definition dec_repr (m : N) (e : Z) : string :=
  let ds := int_repr (Z.of_N m) in
  let n := Z.of_nat (String.length ds) in
  let decpt := n + e in
  if (decpt <=? -4) || (16 <? decpt) then
    take 1 ds +:+ (if 1 <? n then "." +:+ drop 1 ds else "")
    +:+ "e" +:+ exp_repr (decpt - 1)
  else if decpt <=? 0 then
    "0." +:+ zeros (Z.to_nat (- decpt)) +:+ ds
  else if n <=? decpt then
    ds +:+ zeros (Z.to_nat (decpt - n)) +:+ ".0"
  else
    take (Z.to_nat decpt) ds +:+ "." +:+ drop (Z.to_nat decpt) ds.

(** The text [json.dumps] writes for a float. *)
Definition float_repr (f : pyfloat) : string :=
  match f with
  | FNan => "NaN"
  | FInf false => "Infinity"
  | FInf true => "-Infinity"
  | FDec neg m e => (if neg then "-" else "") +:+ dec_repr m e
  end.

Definition dquote : ascii := "034"%char.

Definition hex_digit (n : N) : ascii :=
  match n with
  | 0 => "0" | 1 => "1" | 2 => "2" | 3 => "3" | 4 => "4" | 5 => "5"
  | 6 => "6" | 7 => "7" | 8 => "8" | 9 => "9" | 10 => "a" | 11 => "b"
  | 12 => "c" | 13 => "d" | 14 => "e" | _ => "f"
  end%N%char.

(** One character of a string, under [ensure_ascii]. *)
Definition escape_char (c : ascii) : string :=
  let n := N_of_ascii c in
  if (n =? 34)%N then String "\" (String dquote "")
  else if (n =? 92)%N then "\\"
  else if (n =? 10)%N then "\n"
  else if (n =? 13)%N then "\r"
  else if (n =? 9)%N then "\t"
  else if (n =? 8)%N then "\b"
  else if (n =? 12)%N then "\f"
  else if ((32 <=? n) && (n <=? 126))%N then String c ""
  else "\u00" +:+ String (hex_digit (n / 16)) (String (hex_digit (n mod 16)) "").

(** A [str] as a JSON string. *)
Fixpoint escape (s : string) : string :=
  match s with
  | EmptyString => ""
  | String c s' => escape_char c +:+ escape s'
  end.

Definition encode_str (s : string) : string :=
  String dquote (escape s) +:+ String dquote "".

Fixpoint dumps (v : json) : string :=
  match v with
  | JNull => "null"
  | JBool true => "true"
  | JBool false => "false"
  | JInt z => int_repr z
  | JFloat f => float_repr f
  | JStr s => encode_str s
  | JList l =>
      "[" +:+
      (fix items (l : list json) : string :=
         match l with
         | [] => ""
         | x :: l' =>
             match l' with
             | [] => dumps x
             | _ => dumps x +:+ ", " +:+ items l'
             end
         end) l
      +:+ "]"
  | JDict d =>
      "{" +:+
      (fix items (d : list (string * json)) : string :=
         match d with
         | [] => ""
         | (k, x) :: d' =>
             match d' with
             | [] => encode_str k +:+ ": " +:+ dumps x
             | _ => encode_str k +:+ ": " +:+ dumps x +:+ ", " +:+ items d'
             end
         end) d
      +:+ "}"
  end.

(** ** Exceptions

    The exceptions the script can meet and does not catch. The [ValueError]
    of [int] is always caught, so [py_int] returns an option instead. *)
Inductive exn :=
| OSError            (* open: a directory, or no permission *)
| JSONDecodeError    (* json.load: the text is not a JSON document *)
| AttributeError     (* a method of dict called on another value *)
| TypeError          (* list.pop called with two arguments *)
| OverflowError      (* an int outside SQLite's 64-bit INTEGER *)
| ProgrammingError   (* a list or a dict bound to a statement parameter *)
| IntegrityError.    (* NOT NULL constraint failed *)

Inductive result (A : Type) :=
| Ok (a : A)
| Raise (e : exn).

Arguments Ok {A} a.
Arguments Raise {A} e.

#[export] Instance result_ret : MRet result := fun A a => Ok a.

#[export] Instance result_bind : MBind result := fun A B f m =>
  match m with
  | Ok a => f a
  | Raise e => Raise e
  end.

#[export] Instance result_fmap : FMap result := fun A B f m =>
  match m with
  | Ok a => Ok (f a)
  | Raise e => Raise e
  end.

(** [v.get(key, default)] on any value: only a dict has the method. *)
Definition py_get (v : json) (key : string) (default : json) : result json :=
  match v with
  | JDict d => Ok (get d key default)
  | _ => Raise AttributeError
  end.

(** [v.pop(key, default)]: the value popped and the items left. *)
Definition py_pop (v : json) (key : string) (default : json)
  : result (json * list (string * json)) :=
  match v with
  | JDict d => Ok (get d key default, dict_del key d)
  | JList _ => Raise TypeError
  | _ => Raise AttributeError
  end.

(** [v.items()] *)
Definition py_items (v : json) : result (list (string * json)) :=
  match v with
  | JDict d => Ok d
  | _ => Raise AttributeError
  end.

End Py.

Import Py.


(* ===================================================================== *)
(** * The SQLite store *)
(* ===================================================================== *)

Module Sqlite.

(** A stored value. Columns hold the value that was bound: the conversions
    of SQLite's column affinity are a function of that value alone and are
    left out. *)
Inductive sqlval :=
| Null
| Integer (z : Z)
| Real (f : pyfloat)
| Text (s : string).

(** The range of an INTEGER. *)
Definition int64 (z : Z) : bool :=
  (- 2 ^ 63 <=? z) && (z <? 2 ^ 63).

(** Binding a Python [int]. *)
Definition bind_int (z : Z) : result Z :=
  if int64 z then Ok z else Raise OverflowError.

(** Binding one statement parameter. A [bool] is an [int]; a NaN is stored
    as NULL; a list or a dict has no adapter. *)
Definition bind_param (v : json) : result sqlval :=
  match v with
  | JNull => Ok Null
  | JBool b => Ok (Integer (if b then 1 else 0))
  | JInt z => z' ← bind_int z; Ok (Integer z')
  | JFloat FNan => Ok Null
  | JFloat f => Ok (Real f)
  | JStr s => Ok (Text s)
  | JList _ | JDict _ => Raise ProgrammingError
  end.

(** [OR REPLACE] on a NOT NULL column with a DEFAULT: a NULL becomes the
    default. *)
Definition not_null_default (default v : sqlval) : sqlval :=
  match v with
  | Null => default
  | _ => v
  end.

(** [OR REPLACE] on a NOT NULL column without a DEFAULT: a NULL aborts the
    statement. *)
Definition not_null (v : sqlval) : result sqlval :=
  match v with
  | Null => Raise IntegrityError
  | _ => Ok v
  end.

Module Profile.
(** A row of [user_profiles]; PRIMARY KEY (user_id, guild_id). *)
Record row := {
  user_id : Z;
  guild_id : Z;
  level : sqlval;
  total_xp : sqlval;
  xp_to_next_level : sqlval;
  total_commands_used : sqlval;
  total_messages : sqlval;
  last_daily : sqlval;
  daily_streak : sqlval;
  last_message_timestamp : sqlval;
  achievements : sqlval;
  best_rank : sqlval;
  previous_rank : sqlval;
  rank_improvement : sqlval;
  images_shared : sqlval;
  long_messages : sqlval;
  links_shared : sqlval;
  goals_completed : sqlval;
  boost_days : sqlval;
  first_boost_date : sqlval;
  xp_history : sqlval
}.

Definition key (r : row) : Z * Z := (user_id r, guild_id r).
End Profile.

Module Goal.
(** A row of [daily_goals]; guild_id INTEGER PRIMARY KEY. *)
Record row := {
  guild_id : Z;
  date : sqlval;
  target : sqlval;
  progress : sqlval;
  claimers : sqlval;
  completed : sqlval;
  bonus_awarded_to : sqlval
}.
End Goal.

(** The row [INSERT OR REPLACE INTO user_profiles (...) VALUES (?, ...)]
    stores for its 21 parameters, bound in order. *)
Definition user_profiles_row
    (user_id guild_id : Z)
    (level total_xp xp_to_next_level total_commands_used total_messages
     last_daily daily_streak last_message_timestamp achievements best_rank
     previous_rank rank_improvement images_shared long_messages links_shared
     goals_completed boost_days first_boost_date xp_history : json)
  : result Profile.row :=
  user_id ← bind_int user_id;
  guild_id ← bind_int guild_id;
  level ← bind_param level;
  total_xp ← bind_param total_xp;
  xp_to_next_level ← bind_param xp_to_next_level;
  total_commands_used ← bind_param total_commands_used;
  total_messages ← bind_param total_messages;
  last_daily ← bind_param last_daily;
  daily_streak ← bind_param daily_streak;
  last_message_timestamp ← bind_param last_message_timestamp;
  achievements ← bind_param achievements;
  best_rank ← bind_param best_rank;
  previous_rank ← bind_param previous_rank;
  rank_improvement ← bind_param rank_improvement;
  images_shared ← bind_param images_shared;
  long_messages ← bind_param long_messages;
  links_shared ← bind_param links_shared;
  goals_completed ← bind_param goals_completed;
  boost_days ← bind_param boost_days;
  first_boost_date ← bind_param first_boost_date;
  xp_history ← bind_param xp_history;
  Ok {|
    Profile.user_id := user_id;
    Profile.guild_id := guild_id;
    Profile.level := not_null_default (Integer 1) level;
    Profile.total_xp := not_null_default (Integer 0) total_xp;
    Profile.xp_to_next_level := not_null_default (Integer 100) xp_to_next_level;
    Profile.total_commands_used := not_null_default (Integer 0) total_commands_used;
    Profile.total_messages := not_null_default (Integer 0) total_messages;
    Profile.last_daily := last_daily;
    Profile.daily_streak := not_null_default (Integer 0) daily_streak;
    Profile.last_message_timestamp := last_message_timestamp;
    Profile.achievements := not_null_default (Text "[]") achievements;
    Profile.best_rank := not_null_default (Integer 999) best_rank;
    Profile.previous_rank := not_null_default (Integer 999) previous_rank;
    Profile.rank_improvement := not_null_default (Integer 0) rank_improvement;
    Profile.images_shared := not_null_default (Integer 0) images_shared;
    Profile.long_messages := not_null_default (Integer 0) long_messages;
    Profile.links_shared := not_null_default (Integer 0) links_shared;
    Profile.goals_completed := not_null_default (Integer 0) goals_completed;
    Profile.boost_days := not_null_default (Integer 0) boost_days;
    Profile.first_boost_date := first_boost_date;
    Profile.xp_history := not_null_default (Text "[]") xp_history
  |}.

(** The row [INSERT OR REPLACE INTO daily_goals (...) VALUES (?, ...)]
    stores for its 7 parameters. *)
Definition daily_goals_row
    (guild_id : Z) (date target progress claimers completed bonus_awarded_to : json)
  : result Goal.row :=
  guild_id ← bind_int guild_id;
  date ← bind_param date;
  target ← bind_param target;
  progress ← bind_param progress;
  claimers ← bind_param claimers;
  completed ← bind_param completed;
  bonus_awarded_to ← bind_param bonus_awarded_to;
  date ← not_null date;
  target ← not_null target;
  progress ← not_null progress;
  Ok {|
    Goal.guild_id := guild_id;
    Goal.date := date;
    Goal.target := target;
    Goal.progress := progress;
    Goal.claimers := not_null_default (Text "[]") claimers;
    Goal.completed := not_null_default (Integer 0) completed;
    Goal.bonus_awarded_to := not_null_default (Text "[]") bonus_awarded_to
  |}.

(** ** The database file and the connection *)

(** A table is absent ([None]) until it is created. *)
Record database := {
  user_profiles : option (gmap (Z * Z) Profile.row);
  daily_goals : option (gmap Z Goal.row)
}.

Definition empty : database :=
  {| user_profiles := None; daily_goals := None |}.

(** CREATE TABLE IF NOT EXISTS user_profiles (...) *)
Definition create_user_profiles (db : database) : database :=
  {| user_profiles := Some (default ∅ (user_profiles db));
     daily_goals := daily_goals db |}.

(** CREATE TABLE IF NOT EXISTS daily_goals (...) *)
Definition create_daily_goals (db : database) : database :=
  {| user_profiles := user_profiles db;
     daily_goals := Some (default ∅ (daily_goals db)) |}.

(** INSERT OR REPLACE: the row takes the place of the row of its key. (On
    a table that is absent the statement fails and writes nothing; the
    script creates both tables before its first INSERT.) *)
Definition replace_profile (r : Profile.row) (db : database) : database :=
  {| user_profiles := insert (Profile.key r) r <$> user_profiles db;
     daily_goals := daily_goals db |}.

Definition replace_goal (r : Goal.row) (db : database) : database :=
  {| user_profiles := user_profiles db;
     daily_goals := insert (Goal.guild_id r) r <$> daily_goals db |}.

(** The row of a key, if the table exists and has one. *)
Definition profile_at (db : database) (k : Z * Z) : option Profile.row :=
  user_profiles db ≫= (.!! k).

Definition goal_at (db : database) (g : Z) : option Goal.row :=
  daily_goals db ≫= (.!! g).

(** What the script asks of the [sqlite3] module. *)
Inductive call :=
| Connect (db_path : string)
| CreateUserProfiles
| CreateDailyGoals
| InsertProfile (r : Profile.row)
| InsertGoal (r : Goal.row)
| Commit
| Close.

(** The file on disk and, while a connection is open, the connection's
    view of it and whether a transaction is open. *)
Record session := {
  disk : database;
  conn : option (database * bool)
}.

(** A CREATE TABLE does not open a transaction: outside one it goes to the
    file at once. *)
Definition ddl (f : database -> database) (s : session) : session :=
  match conn s with
  | Some (view, true) => {| disk := disk s; conn := Some (f view, true) |}
  | Some (view, false) => {| disk := f view; conn := Some (f view, false) |}
  | None => s
  end.

(** An INSERT opens a transaction when none is open. *)
Definition dml (f : database -> database) (s : session) : session :=
  match conn s with
  | Some (view, _) => {| disk := disk s; conn := Some (f view, true) |}
  | None => s
  end.

(** One call. A connection sees the file as it is when it connects; a
    commit writes its view to the file; closing drops what is open. *)
Definition exec (s : session) (c : call) : session :=
  match c with
  | Connect _ => {| disk := disk s; conn := Some (disk s, false) |}
  | CreateUserProfiles => ddl create_user_profiles s
  | CreateDailyGoals => ddl create_daily_goals s
  | InsertProfile r => dml (replace_profile r) s
  | InsertGoal r => dml (replace_goal r) s
  | Commit =>
      match conn s with
      | Some (view, _) => {| disk := view; conn := Some (view, false) |}
      | None => s
      end
  | Close => {| disk := disk s; conn := None |}
  end.

(** The file after the calls of a run: what was not committed is lost. *)
Definition run (calls : list call) (db : database) : database :=
  disk (fold_left exec calls {| disk := db; conn := None |}).

End Sqlite.

Import Sqlite.

(* ===================================================================== *)
(** * The script *)
(* ===================================================================== *)

(** ** What a run does: printed lines and calls on the connection *)

(** The lines the script prints, by what they say. *)
Inductive message :=
| MsgNotFound (json_path : string)
| MsgLoading (json_path : string)
| MsgConnecting (db_path : string)
| MsgMigratingUsers
| MsgSkippingGuild (guild_id_str : string)
| MsgMigratedUsers (user_count : nat)
| MsgMigratingGoals
| MsgMigratedGoals (goal_count : nat)
| MsgComplete.

(** The line [print] writes. *)
Definition render (m : message) : string :=
  match m with
  | MsgNotFound json_path => "Error: " +:+ json_path +:+ " not found."
  | MsgLoading json_path => "Loading levels from " +:+ json_path +:+ "..."
  | MsgConnecting db_path => "Connecting to database " +:+ db_path +:+ "..."
  | MsgMigratingUsers => "Migrating users..."
  | MsgSkippingGuild guild_id_str => "Skipping invalid guild ID: " +:+ guild_id_str
  | MsgMigratedUsers user_count => "Migrated " +:+ nat_repr user_count +:+ " user profiles."
  | MsgMigratingGoals => "Migrating daily goals..."
  | MsgMigratedGoals goal_count => "Migrated " +:+ nat_repr goal_count +:+ " daily goals."
  | MsgComplete => "Migration complete."
  end.

(** What a run does that can be seen from outside, in order. *)
Inductive event :=
| Print (m : message)
| Sql (c : call).

(** A computation: the events so far, and a value or the exception that
    stopped it. *)
Definition M (A : Type) : Type := list event * result A.

#[export] Instance M_ret : MRet M := fun A a => ([], Ok a).

#[export] Instance M_bind : MBind M := fun A B f m =>
  match m with
  | (t, Ok a) => let '(t', r) := f a in ((t ++ t')%list, r)
  | (t, Raise e) => (t, Raise e)
  end.

(** [print(...)] *)
Definition print (m : message) : M unit := ([Print m], Ok tt).

(** A call on the connection or its cursor. *)
Definition sql (c : call) : M unit := ([Sql c], Ok tt).

(** A step that prints nothing and calls nothing. *)
Definition lift {A} (r : result A) : M A := ([], r).

(** [for key, value in items: state = body key value state] *)
Fixpoint for_items {S : Type} (body : string -> json -> S -> M S)
    (items : list (string * json)) (s : S) : M S :=
  match items with
  | [] => mret s
  | (key, value) :: items' => s' ← body key value s; for_items body items' s'
  end.

(** ** The input file *)

(** What the file system has at a path. *)
Inductive file :=
| Absent                  (* os.path.exists is False *)
| Unreadable              (* exists, but open raises: a directory, no permission *)
| Malformed               (* opens, but json.load raises *)
| Document (data : json).

(** [os.path.exists(json_path)] *)
Definition exists_ (f : file) : bool :=
  match f with Absent => false | _ => true end.

(** [with open(json_path) as f: data = json.load(f)] *)
Definition load (f : file) : result json :=
  match f with
  | Absent | Unreadable => Raise OSError
  | Malformed => Raise JSONDecodeError
  | Document data => Ok data
  end.

(** ** Migrate users: lines 84-122, one user record to its row *)

Definition user_profile (user_id guild_id : Z) (user_data : json) : result Profile.row :=
  level ← py_get user_data "level" (JInt 1);
  total_xp ← py_get user_data "total_xp" (JInt 0);
  xp_to_next_level ← py_get user_data "xp_to_next_level" (JInt 100);
  total_commands_used ← py_get user_data "total_commands_used" (JInt 0);
  total_messages ← py_get user_data "total_messages" (JInt 0);
  last_daily ← py_get user_data "last_daily" JNull;
  daily_streak ← py_get user_data "daily_streak" (JInt 0);
  last_message_timestamp ← py_get user_data "last_message_timestamp" JNull;
  achievements ← dumps <$> py_get user_data "achievements" (JList []);
  best_rank ← py_get user_data "best_rank" (JInt 999);
  previous_rank ← py_get user_data "previous_rank" (JInt 999);
  rank_improvement ← py_get user_data "rank_improvement" (JInt 0);
  images_shared ← py_get user_data "images_shared" (JInt 0);
  long_messages ← py_get user_data "long_messages" (JInt 0);
  links_shared ← py_get user_data "links_shared" (JInt 0);
  goals_completed ← py_get user_data "goals_completed" (JInt 0);
  boost_days ← py_get user_data "boost_days" (JInt 0);
  first_boost_date ← py_get user_data "first_boost_date" JNull;
  xp_history ← dumps <$> py_get user_data "xp_history" (JList []);
  user_profiles_row
    user_id guild_id level total_xp xp_to_next_level
    total_commands_used total_messages last_daily daily_streak
    last_message_timestamp (JStr achievements) best_rank previous_rank
    rank_improvement images_shared long_messages links_shared
    goals_completed boost_days first_boost_date (JStr xp_history).

(** Lines 78-123: the body of the loop over the users of a guild. *)
Definition migrate_user (guild_id : Z)
    (user_id_str : string) (user_data : json) (user_count : nat) : M nat :=
  match py_int user_id_str with
  | None => mret user_count
  | Some user_id =>
      r ← lift (user_profile user_id guild_id user_data);
      sql (InsertProfile r);;
      mret (S user_count)
  end.

(** Lines 68-123: the body of the loop over the guilds. *)
Definition migrate_guild
    (guild_id_str : string) (users : json) (user_count : nat) : M nat :=
  match py_int guild_id_str with
  | None => print (MsgSkippingGuild guild_id_str);; mret user_count
  | Some guild_id =>
      match users with
      | JDict users => for_items (migrate_user guild_id) users user_count
      | _ => mret user_count
      end
  end.

(** ** Migrate daily goals: lines 138-152, one goal to its row *)

Definition daily_goal_row (guild_id : Z) (daily_goal : json) : result Goal.row :=
  date ← py_get daily_goal "date" (JStr "");
  target ← py_get daily_goal "target" (JInt 0);
  progress ← py_get daily_goal "progress" (JInt 0);
  claimers ← dumps <$> py_get daily_goal "claimers" (JList []);
  completed ← py_get daily_goal "completed" (JBool false);
  bonus_awarded_to ← dumps <$> py_get daily_goal "bonus_awarded_to" (JList []);
  daily_goals_row
    guild_id date target progress (JStr claimers) completed (JStr bonus_awarded_to).

(** Lines 130-153: the body of the loop over the metadata. *)
Definition migrate_daily_goal
    (guild_id_str : string) (guild_meta : json) (goal_count : nat) : M nat :=
  match py_int guild_id_str with
  | None => mret goal_count
  | Some guild_id =>
      daily_goal ← lift (py_get guild_meta "daily_goal" JNull);
      if truthy daily_goal then
        r ← lift (daily_goal_row guild_id daily_goal);
        sql (InsertGoal r);;
        mret (S goal_count)
      else mret goal_count
  end.

(** ** migrate_levels(json_path, db_path)

    [fs] is the file system the run finds. *)
Definition migrate_levels (fs : string -> file) (json_path db_path : string) : M unit :=
  if negb (exists_ (fs json_path)) then
    print (MsgNotFound json_path)
  else
    print (MsgLoading json_path);;
    data ← lift (load (fs json_path));
    '(meta_data, data) ← lift (py_pop data "__meta__" (JDict []));
    '(_, data) ← lift (py_pop (JDict data) "__legacy__" (JDict []));
    print (MsgConnecting db_path);;
    sql (Connect db_path);;
    sql CreateUserProfiles;;
    sql CreateDailyGoals;;
    print MsgMigratingUsers;;
    user_count ← for_items migrate_guild data 0%nat;
    print (MsgMigratedUsers user_count);;
    print MsgMigratingGoals;;
    meta_items ← lift (py_items meta_data);
    goal_count ← for_items migrate_daily_goal meta_items 0%nat;
    print (MsgMigratedGoals goal_count);;
    sql Commit;;
    sql Close;;
    print MsgComplete.

(** The calls of a run, and the database file it leaves. *)
Definition calls (t : list event) : list call :=
  omap (fun e => match e with Sql c => Some c | Print _ => None end) t.

Definition store_after {A} (m : M A) (db : database) : database :=
  Sqlite.run (calls (fst m)) db.

(** ** The script run from the command line, lines 162-169

    [argv] is [sys.argv]: the script's own name, then its arguments. *)
Definition main (argv : list string) (fs : string -> file) : M unit :=
  let json_file := "levels.json" in
  let db_file := "data/leveling.db" in
  let json_file :=
    if (1 <? List.length argv)%nat then nth 1 argv json_file else json_file in
  migrate_levels fs json_file db_file.

(* ===================================================================== *)
(** * Notions of the statements *)
(* ===================================================================== *)

(** ** Rows written to a table *)

(** The table after the rows of [rows] are written in order, each over the
    row of its key. *)
Definition put_all {K : Type} `{Countable K} {V : Type} (key : V -> K)
    (rows : list V) (m : gmap K V) : gmap K V :=
  fold_left (fun m r => <[key r := r]> m) rows m.

(** The last row of [rows] with key [k]. *)
Fixpoint last_put {K : Type} `{Countable K} {V : Type} (key : V -> K)
    (k : K) (rows : list V) : option V :=
  match rows with
  | [] => None
  | r :: rows' =>
      match last_put key k rows' with
      | Some r' => Some r'
      | None => if decide (key r = k) then Some r else None
      end
  end.

(** The rows of the INSERT OR REPLACE INTO user_profiles statements of
    [cs], in order. *)
Definition profile_rows (cs : list call) : list Profile.row :=
  omap (fun c => match c with InsertProfile r => Some r | _ => None end) cs.

(** The rows of the INSERT OR REPLACE INTO daily_goals statements of [cs],
    in order. *)
Definition goal_rows (cs : list call) : list Goal.row :=
  omap (fun c => match c with InsertGoal r => Some r | _ => None end) cs.

(** The call is an INSERT OR REPLACE statement. *)
Definition is_insert (c : call) : bool :=
  match c with InsertProfile _ | InsertGoal _ => true | _ => false end.

(** The effect of the INSERT OR REPLACE statements of [cs], table by table. *)
Definition writes (cs : list call) (db : database) : database :=
  {| user_profiles := put_all Profile.key (profile_rows cs) <$> user_profiles db;
     daily_goals := put_all Goal.guild_id (goal_rows cs) <$> daily_goals db |}.

(** Both CREATE TABLE IF NOT EXISTS statements. *)
Definition schema (db : database) : database :=
  create_daily_goals (create_user_profiles db).

(** The number of rows a run sent to each table. *)
Definition inserted_profiles (t : list event) : nat :=
  List.length (profile_rows (calls t)).

Definition inserted_goals (t : list event) : nat :=
  List.length (goal_rows (calls t)).

(** The row of the run's last INSERT OR REPLACE INTO user_profiles for the
    key [k], if it sent one. *)
Definition last_profile {A} (m : M A) (k : Z * Z) : option Profile.row :=
  last_put Profile.key k (profile_rows (calls (fst m))).

(** ** The run, loop by loop *)

(** What the loop over the guilds can do: report a skipped guild, write a
    user's row. *)
Definition user_event (e : event) : Prop :=
  match e with
  | Print (MsgSkippingGuild _) | Sql (InsertProfile _) => True
  | _ => False
  end.

(** What the loop over the metadata can do: write a goal's row. *)
Definition goal_event (e : event) : Prop :=
  match e with
  | Sql (InsertGoal _) => True
  | _ => False
  end.

(** The two sections of a document: what [data] holds after the two
    [pop]s, and what the first [pop] returned. *)
Definition progression (d : list (string * json)) : list (string * json) :=
  dict_del "__legacy__" (dict_del "__meta__" d).

Definition metadata (d : list (string * json)) : json :=
  get d "__meta__" (JDict []).

(** What a run does before, between and after its two loops. *)
Definition prologue (json_path db_path : string) : list event :=
  [Print (MsgLoading json_path); Print (MsgConnecting db_path);
   Sql (Connect db_path); Sql CreateUserProfiles; Sql CreateDailyGoals;
   Print MsgMigratingUsers].

Definition interlude (user_count : nat) : list event :=
  [Print (MsgMigratedUsers user_count); Print MsgMigratingGoals].

Definition epilogue (goal_count : nat) : list event :=
  [Print (MsgMigratedGoals goal_count); Sql Commit; Sql Close; Print MsgComplete].

(** The run on a document that is a mapping, told by the outcome of its
    two loops ([migrate_levels_document] below). *)
Definition migrate_document (json_path db_path : string)
    (d : list (string * json)) : M unit :=
  let '(tu, ru) := for_items migrate_guild (progression d) 0%nat in
  match ru with
  | Raise e => ((prologue json_path db_path ++ tu)%list, Raise e)
  | Ok user_count =>
      match metadata d with
      | JDict meta =>
          let '(tg, rg) := for_items migrate_daily_goal meta 0%nat in
          match rg with
          | Raise e =>
              ((prologue json_path db_path ++ tu ++ interlude user_count ++ tg)%list,
               Raise e)
          | Ok goal_count =>
              ((prologue json_path db_path ++ tu ++ interlude user_count
                ++ tg ++ epilogue goal_count)%list, Ok tt)
          end
      | _ =>
          ((prologue json_path db_path ++ tu ++ interlude user_count)%list,
           Raise AttributeError)
      end
  end.

(** ** One record, one row *)

(** The value a bindable parameter is stored as. *)
Definition bound (v : json) : sqlval :=
  match bind_param v with
  | Ok s => s
  | Raise _ => Null
  end.

(** SQLite stores the value: [bind_param] does not raise. *)
Definition bindable (v : json) : bool :=
  match bind_param v with
  | Ok _ => true
  | Raise _ => false
  end.

(** The column of a field read with [user_data.get(key, default)]. *)
Definition column (d : list (string * json)) (key : string) (default : json)
    (if_null : sqlval) : sqlval :=
  not_null_default if_null (bound (get d key default)).

(** The column of a field read with [json.dumps(user_data.get(key, []))]. *)
Definition list_column (d : list (string * json)) (key : string) : sqlval :=
  Text (dumps (get d key (JList []))).

(** The row of a user record [d], when the statement accepts it. *)
Definition profile_of (user_id guild_id : Z) (d : list (string * json))
  : Profile.row :=
  {| Profile.user_id := user_id;
     Profile.guild_id := guild_id;
     Profile.level := column d "level" (JInt 1) (Integer 1);
     Profile.total_xp := column d "total_xp" (JInt 0) (Integer 0);
     Profile.xp_to_next_level := column d "xp_to_next_level" (JInt 100) (Integer 100);
     Profile.total_commands_used := column d "total_commands_used" (JInt 0) (Integer 0);
     Profile.total_messages := column d "total_messages" (JInt 0) (Integer 0);
     Profile.last_daily := bound (get d "last_daily" JNull);
     Profile.daily_streak := column d "daily_streak" (JInt 0) (Integer 0);
     Profile.last_message_timestamp := bound (get d "last_message_timestamp" JNull);
     Profile.achievements := list_column d "achievements";
     Profile.best_rank := column d "best_rank" (JInt 999) (Integer 999);
     Profile.previous_rank := column d "previous_rank" (JInt 999) (Integer 999);
     Profile.rank_improvement := column d "rank_improvement" (JInt 0) (Integer 0);
     Profile.images_shared := column d "images_shared" (JInt 0) (Integer 0);
     Profile.long_messages := column d "long_messages" (JInt 0) (Integer 0);
     Profile.links_shared := column d "links_shared" (JInt 0) (Integer 0);
     Profile.goals_completed := column d "goals_completed" (JInt 0) (Integer 0);
     Profile.boost_days := column d "boost_days" (JInt 0) (Integer 0);
     Profile.first_boost_date := bound (get d "first_boost_date" JNull);
     Profile.xp_history := list_column d "xp_history" |}.

(** The fields of a user record that are bound as they are read, with the
    default the script reads them with. *)
Definition scalar_fields : list (string * json) :=
  [("level", JInt 1); ("total_xp", JInt 0); ("xp_to_next_level", JInt 100);
   ("total_commands_used", JInt 0); ("total_messages", JInt 0);
   ("last_daily", JNull); ("daily_streak", JInt 0);
   ("last_message_timestamp", JNull); ("best_rank", JInt 999);
   ("previous_rank", JInt 999); ("rank_improvement", JInt 0);
   ("images_shared", JInt 0); ("long_messages", JInt 0);
   ("links_shared", JInt 0); ("goals_completed", JInt 0);
   ("boost_days", JInt 0); ("first_boost_date", JNull)].

(** The row of a daily goal [f], when the statement accepts it. *)
Definition goal_of (guild_id : Z) (f : list (string * json)) : Goal.row :=
  {| Goal.guild_id := guild_id;
     Goal.date := bound (get f "date" (JStr ""));
     Goal.target := bound (get f "target" (JInt 0));
     Goal.progress := bound (get f "progress" (JInt 0));
     Goal.claimers := list_column f "claimers";
     Goal.completed := column f "completed" (JBool false) (Integer 0);
     Goal.bonus_awarded_to := list_column f "bonus_awarded_to" |}.

(** Bindable, and not stored as NULL. *)
Definition required (v : json) : bool :=
  match bind_param v with
  | Ok Null | Raise _ => false
  | Ok _ => true
  end.

(** ** The statements' own words *)

(** [open] can give the text of the file. *)
Definition readable (f : file) : bool :=
  match f with
  | Absent | Unreadable => false
  | Malformed | Document _ => true
  end.

(** The columns of [r] whose field the record [d] does not have hold the
    documented defaults. *)
Definition profile_defaults (d : list (string * json)) (r : Profile.row) : Prop :=
  (dict_get "level" d = None -> Profile.level r = Integer 1) /\
  (dict_get "total_xp" d = None -> Profile.total_xp r = Integer 0) /\
  (dict_get "xp_to_next_level" d = None -> Profile.xp_to_next_level r = Integer 100) /\
  (dict_get "best_rank" d = None -> Profile.best_rank r = Integer 999) /\
  (dict_get "previous_rank" d = None -> Profile.previous_rank r = Integer 999) /\
  (dict_get "rank_improvement" d = None -> Profile.rank_improvement r = Integer 0) /\
  (dict_get "total_commands_used" d = None -> Profile.total_commands_used r = Integer 0) /\
  (dict_get "total_messages" d = None -> Profile.total_messages r = Integer 0) /\
  (dict_get "daily_streak" d = None -> Profile.daily_streak r = Integer 0) /\
  (dict_get "images_shared" d = None -> Profile.images_shared r = Integer 0) /\
  (dict_get "long_messages" d = None -> Profile.long_messages r = Integer 0) /\
  (dict_get "links_shared" d = None -> Profile.links_shared r = Integer 0) /\
  (dict_get "goals_completed" d = None -> Profile.goals_completed r = Integer 0) /\
  (dict_get "boost_days" d = None -> Profile.boost_days r = Integer 0) /\
  (dict_get "achievements" d = None -> Profile.achievements r = Text "[]") /\
  (dict_get "xp_history" d = None -> Profile.xp_history r = Text "[]") /\
  (dict_get "last_daily" d = None -> Profile.last_daily r = Null) /\
  (dict_get "last_message_timestamp" d = None ->
   Profile.last_message_timestamp r = Null) /\
  (dict_get "first_boost_date" d = None -> Profile.first_boost_date r = Null).

(** Every field the script binds as it reads it holds a value SQLite can
    store. *)
Definition record_ok (d : list (string * json)) : bool :=
  forallb (fun '(key, default) => bindable (get d key default)) scalar_fields.

(** The text of a column is the serialization of an array. *)
Definition array_text (s : sqlval) : Prop :=
  exists l, s = Text (dumps (JList l)).

(** The field [key] of [d] is absent, or is a list. *)
Definition list_or_absent (key : string) (d : list (string * json)) : Prop :=
  match dict_get key d with
  | Some v => is_list v = true
  | None => True
  end.

(** The columns of [r] whose field the daily goal [f] does not have hold
    the documented defaults, and the two list columns hold the serialized
    lists. *)
Definition goal_defaults (f : list (string * json)) (r : Goal.row) : Prop :=
  (dict_get "date" f = None -> Goal.date r = Text "") /\
  (dict_get "target" f = None -> Goal.target r = Integer 0) /\
  (dict_get "progress" f = None -> Goal.progress r = Integer 0) /\
  (dict_get "completed" f = None -> Goal.completed r = Integer 0) /\
  Goal.claimers r = Text (dumps (get f "claimers" (JList []))) /\
  Goal.bonus_awarded_to r = Text (dumps (get f "bonus_awarded_to" (JList []))).

(** A daily goal the statement accepts: a mapping whose date, target and
    progress are stored as something else than NULL, and whose completion
    flag is a value SQLite stores. *)
Definition daily_goal_ok (daily_goal : json) : bool :=
  match daily_goal with
  | JDict f =>
      required (get f "date" (JStr "")) && required (get f "target" (JInt 0))
      && required (get f "progress" (JInt 0))
      && bindable (get f "completed" (JBool false))
  | _ => false
  end.

(** The entry of the metadata section has a daily goal the loop acts on. *)
Definition has_daily_goal (guild_meta : json) : bool :=
  match guild_meta with
  | JDict gm => truthy (get gm "daily_goal" JNull)
  | _ => false
  end.

(** The metadata section of the document has an entry for the guild [g]
    with a daily goal. *)
Definition names_goal (doc : json) (g : Z) : Prop :=
  exists d meta k guild_meta,
    doc = JDict d /\ metadata d = JDict meta /\
    In (k, guild_meta) meta /\ py_int k = Some g /\
    has_daily_goal guild_meta = true.

(** The users of a guild the loop can write: every user key that is an
    integer fits an INTEGER, as does the guild's, and comes with a record
    the statement accepts. *)
Definition users_ok (guild_id : Z) (users : list (string * json)) : bool :=
  forallb (fun '(user_id_str, user_data) =>
             match py_int user_id_str with
             | Some user_id =>
                 int64 guild_id && int64 user_id
                 && match user_data with
                    | JDict d => record_ok d
                    | _ => false
                    end
             | None => true
             end) users.

(** An entry of the progression section the loop can go through. *)
Definition guild_ok (guild : string * json) : bool :=
  match py_int (fst guild), snd guild with
  | Some guild_id, JDict users => users_ok guild_id users
  | _, _ => true
  end.

(** An entry of the metadata section the loop can go through: a mapping,
    without a daily goal or with one the statement accepts. *)
Definition guild_meta_ok (entry : string * json) : bool :=
  match py_int (fst entry) with
  | Some guild_id =>
      match snd entry with
      | JDict gm =>
          negb (truthy (get gm "daily_goal" JNull))
          || int64 guild_id && daily_goal_ok (get gm "daily_goal" JNull)
      | _ => false
      end
  | None => true
  end.

(** A well-formed document: a mapping, whose metadata section (when it has
    one) is a mapping of guilds to mappings with an optional daily goal,
    and whose user records and daily goals hold values SQLite stores. *)
Definition well_formed (doc : json) : bool :=
  match doc with
  | JDict d =>
      forallb guild_ok (progression d)
      && match metadata d with
         | JDict meta => forallb guild_meta_ok meta
         | _ => false
         end
  | _ => false
  end.

(** The document of the specification's scenario, with a guild key that
    is not an integer next to guild 10. *)
Definition levels_json : json :=
  JDict [("__meta__",
          JDict [("10", JDict [("daily_goal",
                                JDict [("date", JStr "2024-01-01");
                                       ("target", JInt 500);
                                       ("progress", JInt 120);
                                       ("claimers", JList [JStr "1"]);
                                       ("completed", JBool false);
                                       ("bonus_awarded_to", JList [])])])]);
         ("10", JDict [("1", JDict [("level", JInt 5); ("total_xp", JInt 1200)])]);
         ("abc", JDict [("2", JDict [])])].

(** ** More notions of the statements *)

(** The row of the run's last INSERT OR REPLACE INTO daily_goals for the
    guild [g], if it sent one. *)
Definition last_goal {A} (m : M A) (g : Z) : option Goal.row :=
  last_put Goal.guild_id g (goal_rows (calls (fst m))).

(** The guild keys the run reported as skipped, in order. *)
Definition skipped_guilds (t : list event) : list string :=
  omap (fun e => match e with
                 | Print (MsgSkippingGuild k) => Some k
                 | _ => None
                 end) t.

(** The keys of [items] that [int] rejects, in order. *)
Definition non_integer_keys (items : list (string * json)) : list string :=
  map fst (List.filter (fun kv => match py_int (fst kv) with
                                  | Some _ => false
                                  | None => true
                                  end) items).

(** The document has a user record under keys that are the integers of
    [k]: the user's first, the guild's second. *)
Definition names_profile (doc : json) (k : Z * Z) : Prop :=
  exists d gk users uk user_data,
    doc = JDict d /\ In (gk, JDict users) (progression d) /\
    In (uk, user_data) users /\
    py_int gk = Some (snd k) /\ py_int uk = Some (fst k).



(** A document with a user record that is not a mapping. *)
Definition broken_json : json :=
  JDict [("10", JDict [("1", JDict [("level", JInt 5)]); ("2", JList [])])].


(** ** The rows of a document *)

(** The row of a user entry of the guild [guild_id]: none under a key that
    is not an integer. *)
Definition record_row (guild_id : Z) (user : string * json) : option Profile.row :=
  match py_int (fst user), snd user with
  | Some user_id, JDict d => Some (profile_of user_id guild_id d)
  | _, _ => None
  end.

(** The rows of a guild entry: none under a key that is not an integer,
    none for a value that is not a mapping. *)
Definition guild_rows (guild : string * json) : list Profile.row :=
  match py_int (fst guild), snd guild with
  | Some guild_id, JDict users => omap (record_row guild_id) users
  | _, _ => []
  end.

(** The rows of the progression section, in the order of the document. *)
Definition document_profiles (data : list (string * json)) : list Profile.row :=
  flat_map guild_rows data.

(** The row of a metadata entry: none under a key that is not an integer,
    none without a truthy daily goal. *)
Definition meta_row (entry : string * json) : option Goal.row :=
  match py_int (fst entry), snd entry with
  | Some guild_id, JDict gm =>
      match get gm "daily_goal" JNull with
      | JDict f => if truthy (JDict f) then Some (goal_of guild_id f) else None
      | _ => None
      end
  | _, _ => None
  end.

(** The rows of the metadata section, in the order of the document. *)
Definition document_goals (meta : list (string * json)) : list Goal.row :=
  omap meta_row meta.

(* ===================================================================== *)
(** * Properties of the store *)
(* ===================================================================== *)

(** ** A sequence of replacements on one table *)

Section Replace.
Context {K : Type} `{Countable K} {V : Type} (key : V -> K).

Lemma lookup_put_all rows m k :
  put_all key rows m !! k = match last_put key k rows with
                            | Some r => Some r
                            | None => m !! k
                            end.
Proof.
  revert m. induction rows as [|r rows IH]; intros m; simpl; [done|].
  unfold put_all in *. simpl. rewrite IH.
  destruct (last_put key k rows); [done|].
  destruct (decide (key r = k)) as [->|Hne].
  - by rewrite lookup_insert_eq.
  - by rewrite lookup_insert_ne.
Qed.

Lemma put_all_idem rows m :
  put_all key rows (put_all key rows m) = put_all key rows m.
Proof.
  apply map_eq. intros k. rewrite !lookup_put_all.
  by destruct (last_put key k rows).
Qed.

Lemma last_put_key k rows r : last_put key k rows = Some r -> key r = k.
Proof.
  induction rows as [|r' rows IH]; simpl; [done|].
  destruct (last_put key k rows); [auto|].
  destruct (decide (key r' = k)); congruence.
Qed.

Lemma last_put_In k rows r : last_put key k rows = Some r -> In r rows.
Proof.
  induction rows as [|r' rows IH]; simpl; [done|].
  destruct (last_put key k rows); [auto|].
  destruct (decide (key r' = k)); [|done].
  intros [= ->]. by left.
Qed.

Lemma last_put_None k rows :
  last_put key k rows = None <-> (forall r, In r rows -> key r <> k).
Proof.
  induction rows as [|r' rows IH]; simpl.
  - split; [intros _ r [] | done].
  - destruct (last_put key k rows) eqn:E.
    + split; [done|]. intros Hall. apply last_put_In in E as Hin.
      apply last_put_key in E. exfalso. eapply Hall; eauto.
    + destruct (decide (key r' = k)) as [He|Hne].
      * split; [done|]. intros Hall. exfalso. eapply Hall; eauto.
      * split; [|done]. intros _ r [<-|Hin]; [done|].
        by apply IH.
Qed.
(** Rows of distinct keys, none of them in the table, each add a row. *)
Lemma size_put_all rows m :
  NoDup (map key rows) ->
  (forall r, In r rows -> m !! key r = None) ->
  size (put_all key rows m) = (size m + List.length rows)%nat.
Proof.
  revert m. induction rows as [|r rows IH]; intros m Hnodup Hfresh.
  - simpl. lia.
  - simpl in Hnodup. apply NoDup_cons in Hnodup as [Hr Hnodup].
    change (put_all key (r :: rows) m) with (put_all key rows (<[key r := r]> m)).
    rewrite IH; [|done|].
    + rewrite map_size_insert_None by (apply Hfresh; by left). simpl. lia.
    + intros r' Hin. rewrite lookup_insert_ne.
      * apply Hfresh. by right.
      * intros Heq. apply Hr. rewrite Heq. apply list_elem_of_In.
        by apply in_map.
Qed.
End Replace.

(** ** The rows a list of calls writes *)

Lemma profile_rows_app cs1 cs2 :
  profile_rows (cs1 ++ cs2) = (profile_rows cs1 ++ profile_rows cs2)%list.
Proof. apply omap_app. Qed.

Lemma goal_rows_app cs1 cs2 :
  goal_rows (cs1 ++ cs2) = (goal_rows cs1 ++ goal_rows cs2)%list.
Proof. apply omap_app. Qed.

Lemma calls_app t1 t2 : calls (t1 ++ t2) = (calls t1 ++ calls t2)%list.
Proof. apply omap_app. Qed.

Lemma database_eq (db1 db2 : database) :
  user_profiles db1 = user_profiles db2 ->
  daily_goals db1 = daily_goals db2 ->
  db1 = db2.
Proof. destruct db1, db2; simpl; congruence. Qed.

Lemma writes_nil db : writes [] db = db.
Proof.
  apply database_eq; simpl.
  - by destruct (user_profiles db).
  - by destruct (daily_goals db).
Qed.

Lemma writes_cons c cs db :
  is_insert c = true ->
  writes (c :: cs) db =
  writes cs (match c with
             | InsertProfile r => replace_profile r db
             | InsertGoal r => replace_goal r db
             | _ => db
             end).
Proof.
  intros Hc. destruct c; try discriminate; apply database_eq; simpl;
    by destruct (user_profiles db), (daily_goals db).
Qed.

(** Inside an open connection, INSERT statements change the connection's
    view and leave the file as it is. *)
Lemma exec_inserts cs d view b :
  forallb is_insert cs = true ->
  exists b',
    fold_left exec cs {| disk := d; conn := Some (view, b) |} =
    {| disk := d; conn := Some (writes cs view, b') |}.
Proof.
  revert view b. induction cs as [|c cs IH]; intros view b Hall.
  - exists b. by rewrite writes_nil.
  - simpl in Hall. apply andb_prop in Hall as [Hc Hall].
    rewrite writes_cons by done.
    destruct c; try discriminate; simpl; unfold dml; simpl; apply IH, Hall.
Qed.

(** The file after a run that connected, created the tables, wrote, and
    committed. *)
Lemma run_committed db_path ws db :
  forallb is_insert ws = true ->
  Sqlite.run (Connect db_path :: CreateUserProfiles :: CreateDailyGoals
              :: ws ++ [Commit; Close]) db
  = writes ws (schema db).
Proof.
  intros Hws. unfold Sqlite.run.
  change (Connect db_path :: CreateUserProfiles :: CreateDailyGoals
          :: ws ++ [Commit; Close])%list
    with ([Connect db_path; CreateUserProfiles; CreateDailyGoals]
          ++ ws ++ [Commit; Close])%list.
  rewrite !fold_left_app.
  change (fold_left exec [Connect db_path; CreateUserProfiles; CreateDailyGoals]
            {| disk := db; conn := None |})
    with {| disk := schema db; conn := Some (schema db, false) |}.
  destruct (exec_inserts ws (schema db) (schema db) false Hws) as [b' ->].
  reflexivity.
Qed.

(** The file after a run that connected, created the tables, wrote, and
    stopped without a commit. *)
Lemma run_uncommitted db_path ws db :
  forallb is_insert ws = true ->
  Sqlite.run (Connect db_path :: CreateUserProfiles :: CreateDailyGoals :: ws) db
  = schema db.
Proof.
  intros Hws. unfold Sqlite.run.
  change (Connect db_path :: CreateUserProfiles :: CreateDailyGoals :: ws)%list
    with ([Connect db_path; CreateUserProfiles; CreateDailyGoals] ++ ws)%list.
  rewrite fold_left_app.
  change (fold_left exec [Connect db_path; CreateUserProfiles; CreateDailyGoals]
            {| disk := db; conn := None |})
    with {| disk := schema db; conn := Some (schema db, false) |}.
  destruct (exec_inserts ws (schema db) (schema db) false Hws) as [b' ->].
  reflexivity.
Qed.

Lemma schema_writes ws db : schema (writes ws (schema db)) = writes ws (schema db).
Proof. apply database_eq; reflexivity. Qed.

Lemma writes_idem ws db : writes ws (writes ws db) = writes ws db.
Proof.
  apply database_eq; simpl.
  - destruct (user_profiles db); simpl; [|done]. by rewrite put_all_idem.
  - destruct (daily_goals db); simpl; [|done]. by rewrite put_all_idem.
Qed.

Lemma profile_at_writes ws db k :
  profile_at (writes ws (schema db)) k =
  match last_put Profile.key k (profile_rows ws) with
  | Some r => Some r
  | None => profile_at db k
  end.
Proof.
  unfold profile_at. simpl. rewrite lookup_put_all.
  destruct (last_put _ _ _); [done|].
  by destruct (user_profiles db).
Qed.

Lemma goal_at_writes ws db g :
  goal_at (writes ws (schema db)) g =
  match last_put Goal.guild_id g (goal_rows ws) with
  | Some r => Some r
  | None => goal_at db g
  end.
Proof.
  unfold goal_at. simpl. rewrite lookup_put_all.
  destruct (last_put _ _ _); [done|].
  by destruct (daily_goals db).
Qed.

Lemma goal_at_schema db g : goal_at (schema db) g = goal_at db g.
Proof. unfold goal_at. simpl. by destruct (daily_goals db). Qed.

Lemma profile_at_schema db k : profile_at (schema db) k = profile_at db k.
Proof. unfold profile_at. simpl. by destruct (user_profiles db). Qed.

(* ===================================================================== *)
(** * Properties of the run *)
(* ===================================================================== *)

(** ** The monad and the loops *)

Lemma bind_Ok {A B} (t : list event) (a : A) (f : A -> M B) :
  mbind f ((t, Ok a) : M A) = ((t ++ fst (f a))%list, snd (f a)).
Proof. unfold mbind, M_bind. by destruct (f a). Qed.

Lemma bind_Raise {A B} (t : list event) (e : exn) (f : A -> M B) :
  mbind f ((t, Raise e) : M A) = (t, Raise e).
Proof. reflexivity. Qed.

Lemma bind_ret {A B} (a : A) (f : A -> M B) : mbind f (mret a : M A) = f a.
Proof. unfold mbind, M_bind, mret, M_ret. by destruct (f a). Qed.

Lemma bind_assoc {A B C} (m : M A) (f : A -> M B) (g : B -> M C) :
  mbind g (mbind f m) = mbind (fun a => mbind g (f a)) m.
Proof.
  destruct m as [t [a|e]]; [|reflexivity].
  unfold mbind, M_bind. destruct (f a) as [t1 [b|e1]]; [|reflexivity].
  destruct (g b) as [t2 r2]. by rewrite app_assoc.
Qed.

Lemma for_items_cons {S} (body : string -> json -> S -> M S) k v l s :
  for_items body ((k, v) :: l) s = mbind (for_items body l) (body k v s).
Proof. reflexivity. Qed.

Lemma for_items_app {S} (body : string -> json -> S -> M S) l1 l2 s :
  for_items body (l1 ++ l2) s = mbind (for_items body l2) (for_items body l1 s).
Proof.
  revert s. induction l1 as [|[k v] l1 IH]; intros s.
  - symmetry. apply (bind_ret s (for_items body l2)).
  - change (for_items body (((k, v) :: l1) ++ l2) s)
      with (mbind (for_items body (l1 ++ l2)) (body k v s)).
    change (for_items body ((k, v) :: l1) s)
      with (mbind (for_items body l1) (body k v s)).
    rewrite bind_assoc. destruct (body k v s) as [t [s'|e]]; [|reflexivity].
    rewrite !bind_Ok. by rewrite IH.
Qed.

(** An item on which the body does nothing can be left out. *)
Lemma for_items_skip {S} (body : string -> json -> S -> M S) l1 k v l2 s :
  (forall s', body k v s' = mret s') ->
  for_items body (l1 ++ (k, v) :: l2) s = for_items body (l1 ++ l2) s.
Proof.
  intros Hskip. rewrite !for_items_app.
  destruct (for_items body l1 s) as [t [s0|e]]; [|reflexivity].
  by rewrite !bind_Ok, for_items_cons, Hskip, bind_ret.
Qed.

(** Two values on which the body does the same can stand for each other. *)
Lemma for_items_subst {S} (body : string -> json -> S -> M S) l1 k v v' l2 s :
  (forall s', body k v s' = body k v' s') ->
  for_items body (l1 ++ (k, v) :: l2) s = for_items body (l1 ++ (k, v') :: l2) s.
Proof.
  intros Hsame. rewrite !for_items_app.
  destruct (for_items body l1 s) as [t [s0|e]]; [|reflexivity].
  by rewrite !bind_Ok, !for_items_cons, Hsame.
Qed.

(** What holds of every event of every turn holds of every event of the
    loop. *)
Lemma for_items_events {S} (P : event -> Prop)
    (body : string -> json -> S -> M S) l s :
  (forall k v s', In (k, v) l -> Forall P (fst (body k v s'))) ->
  Forall P (fst (for_items body l s)).
Proof.
  revert s. induction l as [|[k v] l IH]; intros s Hbody.
  - constructor.
  - pose proof (Hbody k v s (or_introl eq_refl)) as Hk.
    rewrite for_items_cons.
    destruct (body k v s) as [t [s'|e]]; [|done].
    rewrite bind_Ok. simpl in *. apply Forall_app. split; [done|].
    apply IH. intros k' v' s'' Hin. apply Hbody. by right.
Qed.

(** ** The events of the two loops *)

Lemma migrate_user_events guild_id k v c :
  Forall user_event (fst (migrate_user guild_id k v c)).
Proof.
  unfold migrate_user. destruct (py_int k); [|constructor].
  destruct (user_profile _ _ _) as [r|e]; simpl; repeat constructor.
Qed.

Lemma migrate_guild_events k v c : Forall user_event (fst (migrate_guild k v c)).
Proof.
  unfold migrate_guild. destruct (py_int k); [|repeat constructor].
  destruct v; try constructor.
  apply for_items_events. intros. apply migrate_user_events.
Qed.

Lemma migrate_daily_goal_events k v c :
  Forall goal_event (fst (migrate_daily_goal k v c)).
Proof.
  unfold migrate_daily_goal. destruct (py_int k); [|constructor].
  destruct (py_get v "daily_goal" JNull) as [dg|e]; simpl; [|constructor].
  destruct (truthy dg); [|constructor].
  destruct (daily_goal_row _ _) as [r|e]; simpl; repeat constructor.
Qed.

Lemma users_loop_events data c :
  Forall user_event (fst (for_items migrate_guild data c)).
Proof. apply for_items_events. intros. apply migrate_guild_events. Qed.

Lemma goals_loop_events meta c :
  Forall goal_event (fst (for_items migrate_daily_goal meta c)).
Proof. apply for_items_events. intros. apply migrate_daily_goal_events. Qed.

Lemma user_events_calls t :
  Forall user_event t ->
  forallb is_insert (calls t) = true /\ goal_rows (calls t) = [].
Proof.
  induction 1 as [|e t He _ [IH1 IH2]]; [done|].
  destruct e as [[]|[]]; try done; simpl; auto.
Qed.

Lemma goal_events_calls t :
  Forall goal_event t ->
  forallb is_insert (calls t) = true /\ profile_rows (calls t) = [].
Proof.
  induction 1 as [|e t He _ [IH1 IH2]]; [done|].
  destruct e as [[]|[]]; try done; simpl; auto.
Qed.

(** ** The run on a document, loop by loop *)

Lemma migrate_levels_document fs json_path db_path d :
  fs json_path = Document (JDict d) ->
  migrate_levels fs json_path db_path = migrate_document json_path db_path d.
Proof.
  intros Hfs. unfold migrate_levels, migrate_document. rewrite Hfs. simpl.
  fold (progression d). fold (metadata d).
  destruct (for_items migrate_guild (progression d) 0%nat) as [tu [n|e]];
    [|reflexivity].
  simpl. destruct (metadata d) as [| | | | | |meta]; simpl; try reflexivity.
  destruct (for_items migrate_daily_goal meta 0%nat) as [tg [m|e]];
    reflexivity.
Qed.

(** ** The database file after a run *)

Lemma calls_prologue json_path db_path t :
  calls (prologue json_path db_path ++ t) =
  Connect db_path :: CreateUserProfiles :: CreateDailyGoals :: calls t.
Proof. reflexivity. Qed.

Lemma calls_interlude n t : calls (interlude n ++ t) = calls t.
Proof. reflexivity. Qed.

Lemma calls_epilogue n : calls (epilogue n) = [Commit; Close].
Proof. reflexivity. Qed.

Lemma writes_frame db_path cs db :
  writes (Connect db_path :: CreateUserProfiles :: CreateDailyGoals
          :: cs ++ [Commit; Close]) db
  = writes cs db.
Proof.
  unfold writes. simpl. rewrite profile_rows_app, goal_rows_app. simpl.
  by rewrite !app_nil_r.
Qed.

(** A run on a document leaves the tables created and, when it returns,
    the rows of its INSERT OR REPLACE statements written over them; a run
    that raises leaves no row. *)
Lemma store_after_document json_path db_path d db :
  store_after (migrate_document json_path db_path d) db =
  match snd (migrate_document json_path db_path d) with
  | Ok _ => writes (calls (fst (migrate_document json_path db_path d))) (schema db)
  | Raise _ => schema db
  end.
Proof.
  unfold store_after, migrate_document.
  pose proof (users_loop_events (progression d) 0%nat) as Hu.
  destruct (for_items migrate_guild (progression d) 0%nat) as [tu [n|e]];
    simpl in Hu; apply user_events_calls in Hu as [Hu _].
  2: { cbn [fst snd]. rewrite calls_prologue. by apply run_uncommitted. }
  destruct (metadata d) as [| | | | | |meta]; cbn [fst snd];
    try (rewrite calls_prologue, calls_app, app_nil_r;
         by apply run_uncommitted).
  pose proof (goals_loop_events meta 0%nat) as Hg.
  destruct (for_items migrate_daily_goal meta 0%nat) as [tg [m|e]];
    simpl in Hg; apply goal_events_calls in Hg as [Hg _]; cbn [fst snd].
  - rewrite calls_prologue, calls_app, calls_interlude, calls_app, calls_epilogue.
    rewrite app_assoc, writes_frame. apply run_committed.
    rewrite forallb_app. by rewrite Hu, Hg.
  - rewrite calls_prologue, calls_app, calls_interlude.
    apply run_uncommitted. rewrite forallb_app. by rewrite Hu, Hg.
Qed.

(** A run that does not get a dict out of its file never connects. *)
Lemma no_document_calls fs json_path db_path :
  (forall d, fs json_path <> Document (JDict d)) ->
  calls (fst (migrate_levels fs json_path db_path)) = [].
Proof.
  intros Hno. unfold migrate_levels.
  destruct (fs json_path) as [| | |data]; simpl; try done.
  destruct data; simpl; try done. by destruct (Hno d).
Qed.

Lemma no_document_store fs json_path db_path db :
  (forall d, fs json_path <> Document (JDict d)) ->
  store_after (migrate_levels fs json_path db_path) db = db.
Proof.
  intros Hno. unfold store_after. by rewrite no_document_calls.
Qed.

(** The file after two runs is the file after one, whatever the file
    system holds and whatever the database held. *)
Lemma store_after_twice fs json_path db_path db :
  store_after (migrate_levels fs json_path db_path)
    (store_after (migrate_levels fs json_path db_path) db)
  = store_after (migrate_levels fs json_path db_path) db.
Proof.
  destruct (fs json_path) as [| | |data] eqn:Hfs.
  1-3: by rewrite !no_document_store by congruence.
  destruct data.
  1-6: by rewrite !no_document_store by congruence.
  rewrite (migrate_levels_document _ _ _ _ Hfs), !store_after_document.
  destruct (snd (migrate_document json_path db_path d)).
  - by rewrite schema_writes, writes_idem.
  - apply database_eq; reflexivity.
Qed.

(** ** One record, one row *)

Lemma bind_param_bound v s : bind_param v = Ok s -> s = bound v.
Proof. unfold bound. by intros ->. Qed.

Lemma bindable_bound v : bindable v = true -> bind_param v = Ok (bound v).
Proof. unfold bindable, bound. by destruct (bind_param v). Qed.

Lemma bind_int_Ok z z' : bind_int z = Ok z' -> z' = z /\ int64 z = true.
Proof. unfold bind_int. destruct (int64 z); [|done]. by intros [= ->]. Qed.

Ltac step_bind :=
  match goal with
  | |- context [bind_int ?z] =>
      let E := fresh "E" in
      destruct (bind_int z) eqn:E; simpl; [|discriminate];
      apply bind_int_Ok in E as [-> ?]
  | |- context [bind_param ?v] =>
      let E := fresh "E" in
      destruct (bind_param v) eqn:E; simpl; [|discriminate];
      apply bind_param_bound in E; subst
  end.

Lemma user_profile_dict user_id guild_id user_data r :
  user_profile user_id guild_id user_data = Ok r ->
  exists d, user_data = JDict d.
Proof. destruct user_data; try discriminate. eauto. Qed.

Lemma user_profile_Ok user_id guild_id d r :
  user_profile user_id guild_id (JDict d) = Ok r ->
  r = profile_of user_id guild_id d.
Proof.
  unfold user_profile, user_profiles_row. simpl.
  repeat step_bind. by intros [= <-].
Qed.

Lemma user_profile_total user_id guild_id d :
  int64 user_id = true -> int64 guild_id = true ->
  forallb (fun '(key, default) => bindable (get d key default)) scalar_fields = true ->
  user_profile user_id guild_id (JDict d) = Ok (profile_of user_id guild_id d).
Proof.
  intros Hu Hg Hall. unfold user_profile, user_profiles_row, bind_int. simpl.
  rewrite Hu, Hg. simpl.
  simpl in Hall. repeat (apply andb_prop in Hall as [?%bindable_bound Hall]).
  repeat match goal with H : bind_param _ = _ |- _ => rewrite H; clear H; simpl end.
  reflexivity.
Qed.

Lemma not_null_Ok s s' : not_null s = Ok s' -> s' = s.
Proof. destruct s; simpl; congruence. Qed.

Lemma required_bound v :
  required v = true ->
  bind_param v = Ok (bound v) /\ not_null (bound v) = Ok (bound v).
Proof.
  unfold required, bound. destruct (bind_param v) as [[]|]; simpl; done.
Qed.

Lemma daily_goal_row_dict guild_id daily_goal r :
  daily_goal_row guild_id daily_goal = Ok r -> exists f, daily_goal = JDict f.
Proof. destruct daily_goal; try discriminate. eauto. Qed.

Lemma daily_goal_row_Ok guild_id f r :
  daily_goal_row guild_id (JDict f) = Ok r -> r = goal_of guild_id f.
Proof.
  unfold daily_goal_row, daily_goals_row. simpl.
  repeat step_bind.
  repeat match goal with
         | |- context [not_null ?s] =>
             let E := fresh "E" in
             destruct (not_null s) eqn:E; simpl; [|discriminate];
             apply not_null_Ok in E; subst
         end.
  by intros [= <-].
Qed.

Lemma daily_goal_row_total guild_id f :
  int64 guild_id = true ->
  required (get f "date" (JStr "")) = true ->
  required (get f "target" (JInt 0)) = true ->
  required (get f "progress" (JInt 0)) = true ->
  bindable (get f "completed" (JBool false)) = true ->
  daily_goal_row guild_id (JDict f) = Ok (goal_of guild_id f).
Proof.
  intros Hg [Hd Hd']%required_bound [Ht Ht']%required_bound
    [Hp Hp']%required_bound Hc%bindable_bound.
  unfold daily_goal_row, daily_goals_row, bind_int. simpl.
  rewrite Hg. simpl. rewrite Hd. simpl. rewrite Ht. simpl. rewrite Hp. simpl.
  rewrite Hc. simpl. rewrite Hd'. simpl. rewrite Ht'. simpl. rewrite Hp'.
  reflexivity.
Qed.

(** ** Where the events of a loop come from *)

Lemma for_items_In {S} (body : string -> json -> S -> M S) l s e :
  In e (fst (for_items body l s)) ->
  exists k v s', In (k, v) l /\ In e (fst (body k v s')).
Proof.
  revert s. induction l as [|[k v] l IH]; intros s; [intros []|].
  rewrite for_items_cons.
  destruct (body k v s) as [t [s'|ex]] eqn:Hb.
  - rewrite bind_Ok. simpl. rewrite in_app_iff. intros [Hin|Hin].
    + exists k, v, s. rewrite Hb. split; [by left|done].
    + destruct (IH _ Hin) as (k' & v' & s'' & Hl & He).
      exists k', v', s''. split; [by right|done].
  - simpl. intros Hin. exists k, v, s. rewrite Hb. split; [by left|done].
Qed.

(** Every row the user loop writes is the row of a user record of the
    document, under the integers of its two keys. *)
Lemma users_loop_rows data c r :
  In (Sql (InsertProfile r)) (fst (for_items migrate_guild data c)) ->
  exists gk users uk d,
    In (gk, JDict users) data /\ In (uk, JDict d) users /\
    py_int gk = Some (Profile.guild_id r) /\
    py_int uk = Some (Profile.user_id r) /\
    user_profile (Profile.user_id r) (Profile.guild_id r) (JDict d) = Ok r.
Proof.
  intros (gk & v & c' & Hdata & Hin)%for_items_In.
  unfold migrate_guild in Hin. destruct (py_int gk) as [gid|] eqn:Hgk.
  2: { simpl in Hin. by destruct Hin. }
  destruct v as [| | | | | |users]; try by destruct Hin.
  apply for_items_In in Hin as (uk & ud & c'' & Husers & Hin).
  unfold migrate_user in Hin. destruct (py_int uk) as [uid|] eqn:Huk.
  2: { by destruct Hin. }
  destruct (user_profile uid gid ud) as [r'|ex] eqn:Hrow; simpl in Hin.
  2: { by destruct Hin. }
  destruct Hin as [[= ->]|[]].
  destruct (user_profile_dict _ _ _ _ Hrow) as [d ->].
  pose proof (user_profile_Ok _ _ _ _ Hrow) as ->. simpl.
  exists gk, users, uk, d. rewrite <- Hgk, <- Huk. by repeat split.
Qed.

(** Every row the goal loop writes is the row of the truthy daily goal of
    a metadata entry, under the integer of its key. *)
Lemma goals_loop_rows meta c r :
  In (Sql (InsertGoal r)) (fst (for_items migrate_daily_goal meta c)) ->
  exists k gm f,
    In (k, JDict gm) meta /\
    py_int k = Some (Goal.guild_id r) /\
    get gm "daily_goal" JNull = JDict f /\
    truthy (JDict f) = true /\
    daily_goal_row (Goal.guild_id r) (JDict f) = Ok r.
Proof.
  intros (k & v & c' & Hmeta & Hin)%for_items_In.
  unfold migrate_daily_goal in Hin. destruct (py_int k) as [g|] eqn:Hk.
  2: { by destruct Hin. }
  destruct v as [| | | | | |gm]; try by destruct Hin.
  simpl in Hin. destruct (truthy (get gm "daily_goal" JNull)) eqn:Htruthy.
  2: { by destruct Hin. }
  destruct (daily_goal_row g (get gm "daily_goal" JNull)) as [r'|ex] eqn:Hrow;
    simpl in Hin.
  2: { by destruct Hin. }
  destruct Hin as [[= ->]|[]].
  destruct (daily_goal_row_dict _ _ _ Hrow) as [f Hf]. rewrite Hf in *.
  pose proof (daily_goal_row_Ok _ _ _ Hrow) as ->. simpl.
  exists k, gm, f. by repeat split.
Qed.

(** ** The counters *)

Lemma inserted_profiles_app t1 t2 :
  inserted_profiles (t1 ++ t2) = (inserted_profiles t1 + inserted_profiles t2)%nat.
Proof.
  unfold inserted_profiles. by rewrite calls_app, profile_rows_app, length_app.
Qed.

Lemma inserted_goals_app t1 t2 :
  inserted_goals (t1 ++ t2) = (inserted_goals t1 + inserted_goals t2)%nat.
Proof.
  unfold inserted_goals. by rewrite calls_app, goal_rows_app, length_app.
Qed.

(** A loop whose every turn adds to the counter the number of rows it
    writes ends with the counter raised by the number of rows it wrote. *)
Lemma for_items_count (count : list event -> nat)
    (body : string -> json -> nat -> M nat) l c t n :
  (forall t1 t2, count (t1 ++ t2)%list = (count t1 + count t2)%nat) ->
  count [] = 0%nat ->
  (forall k v c t n, body k v c = (t, Ok n) -> n = (c + count t)%nat) ->
  for_items body l c = (t, Ok n) ->
  n = (c + count t)%nat.
Proof.
  intros Happ Hnil Hbody. revert c t n.
  induction l as [|[k v] l IH]; intros c t n.
  - intros [= <- <-]. rewrite Hnil. lia.
  - rewrite for_items_cons. destruct (body k v c) as [t1 [c1|ex]] eqn:Hb;
      [|discriminate].
    rewrite bind_Ok. destruct (for_items body l c1) as [t2 r2] eqn:Hl.
    simpl. intros [= <- ->]. apply Hbody in Hb. apply IH in Hl.
    rewrite Happ. lia.
Qed.

Lemma migrate_user_count guild_id k v c t n :
  migrate_user guild_id k v c = (t, Ok n) -> n = (c + inserted_profiles t)%nat.
Proof.
  unfold migrate_user. destruct (py_int k).
  - destruct (user_profile _ _ _); simpl; [|discriminate].
    intros [= <- <-]. unfold inserted_profiles. simpl. lia.
  - intros [= <- <-]. unfold inserted_profiles. simpl. lia.
Qed.

Lemma migrate_guild_count k v c t n :
  migrate_guild k v c = (t, Ok n) -> n = (c + inserted_profiles t)%nat.
Proof.
  unfold migrate_guild. destruct (py_int k).
  - destruct v; try (intros [= <- <-]; unfold inserted_profiles; simpl; lia).
    apply for_items_count; [apply inserted_profiles_app|done|].
    apply migrate_user_count.
  - intros [= <- <-]. unfold inserted_profiles. simpl. lia.
Qed.

Lemma users_loop_count data c t n :
  for_items migrate_guild data c = (t, Ok n) -> n = (c + inserted_profiles t)%nat.
Proof.
  apply for_items_count; [apply inserted_profiles_app|done|].
  apply migrate_guild_count.
Qed.

Lemma migrate_daily_goal_count k v c t n :
  migrate_daily_goal k v c = (t, Ok n) -> n = (c + inserted_goals t)%nat.
Proof.
  unfold migrate_daily_goal. destruct (py_int k).
  - destruct (py_get v "daily_goal" JNull) as [dg|]; simpl; [|discriminate].
    destruct (truthy dg).
    + destruct (daily_goal_row _ _); simpl; [|discriminate].
      intros [= <- <-]. unfold inserted_goals. simpl. lia.
    + intros [= <- <-]. unfold inserted_goals. simpl. lia.
  - intros [= <- <-]. unfold inserted_goals. simpl. lia.
Qed.

Lemma goals_loop_count meta c t n :
  for_items migrate_daily_goal meta c = (t, Ok n) ->
  n = (c + inserted_goals t)%nat.
Proof.
  apply for_items_count; [apply inserted_goals_app|done|].
  apply migrate_daily_goal_count.
Qed.

(* ===================================================================== *)
(** * The properties of the specification *)
(* ===================================================================== *)

(** ** A missing input file *)

(** C5, as stated, fails: a path that exists but cannot be opened (a
    directory, say) does not resolve to a readable file, yet it passes the
    [os.path.exists] guard, and [open] raises. *)
Lemma unreadable_path_raises :
  readable Unreadable = false /\
  migrate_levels (fun _ => Unreadable) "levels.json" "data/leveling.db"
  = ([Print (MsgLoading "levels.json")], Raise OSError).
Proof. split; reflexivity. Qed.

(** C5, amended: when the input path does not resolve to a readable file,
    the run makes no call on the store (no connection, no table creation,
    no insert, no commit) and the database is as it was; when moreover the
    path does not exist, the run prints its one error line and returns. *)
Theorem missing_input_file fs json_path db_path db :
  readable (fs json_path) = false ->
  calls (fst (migrate_levels fs json_path db_path)) = [] /\
  store_after (migrate_levels fs json_path db_path) db = db /\
  (exists_ (fs json_path) = false ->
   migrate_levels fs json_path db_path = ([Print (MsgNotFound json_path)], Ok tt)).
Proof.
  intros Hf.
  assert (forall d, fs json_path <> Document (JDict d)) as Hno.
  { intros d Hd. rewrite Hd in Hf. discriminate. }
  split; [by apply no_document_calls|].
  split; [by apply no_document_store|].
  unfold migrate_levels. by intros ->.
Qed.

Lemma missing_input_file_witness :
  calls (fst (migrate_levels (fun _ => Absent) "levels.json" "data/leveling.db")) = [] /\
  store_after (migrate_levels (fun _ => Absent) "levels.json" "data/leveling.db")
    Sqlite.empty = Sqlite.empty /\
  (exists_ Absent = false ->
   migrate_levels (fun _ => Absent) "levels.json" "data/leveling.db"
   = ([Print (MsgNotFound "levels.json")], Ok tt)).
Proof.
  apply (missing_input_file (fun _ => Absent) "levels.json" "data/leveling.db").
  reflexivity.
Defined.

(** ** Keys and values the loops pass over *)

Lemma reserved_not_int k : is_Some (py_int k) -> k <> "__meta__" /\ k <> "__legacy__".
Proof. intros [n Hn]. split; intros ->; vm_compute in Hn; discriminate. Qed.

Lemma dict_del_app key l1 l2 :
  dict_del key (l1 ++ l2) = (dict_del key l1 ++ dict_del key l2)%list.
Proof. apply List.filter_app. Qed.

Lemma dict_del_cons_ne key k v l :
  k <> key -> dict_del key ((k, v) :: l) = (k, v) :: dict_del key l.
Proof.
  intros Hne. unfold dict_del. simpl.
  destruct (String.eqb_spec k key); [done|reflexivity].
Qed.

Lemma dict_del_cons_eq key v l : dict_del key ((key, v) :: l) = dict_del key l.
Proof. unfold dict_del. simpl. by rewrite String.eqb_refl. Qed.

Lemma progression_app l1 l2 :
  progression (l1 ++ l2) = (progression l1 ++ progression l2)%list.
Proof. unfold progression. by rewrite !dict_del_app. Qed.

Lemma progression_cons k v l :
  k <> "__meta__" -> k <> "__legacy__" ->
  progression ((k, v) :: l) = (k, v) :: progression l.
Proof.
  intros H1 H2. unfold progression. by rewrite !dict_del_cons_ne.
Qed.

Lemma progression_cons_meta v l : progression (("__meta__", v) :: l) = progression l.
Proof. unfold progression. by rewrite dict_del_cons_eq. Qed.

Lemma dict_get_app key l1 l2 :
  dict_get key (l1 ++ l2) =
  match dict_get key l1 with
  | Some v => Some v
  | None => dict_get key l2
  end.
Proof.
  induction l1 as [|[k v] l1 IH]; simpl; [done|].
  by destruct (String.eqb k key).
Qed.

Lemma metadata_without k v l1 l2 :
  k <> "__meta__" -> metadata (l1 ++ (k, v) :: l2) = metadata (l1 ++ l2).
Proof.
  intros Hne. unfold metadata, get. rewrite !dict_get_app. simpl.
  by destruct (String.eqb_spec k "__meta__").
Qed.

Lemma metadata_at l1 v l2 :
  dict_get "__meta__" l1 = None -> metadata (l1 ++ ("__meta__", v) :: l2) = v.
Proof.
  intros Hl1. unfold metadata, get. rewrite dict_get_app, Hl1. reflexivity.
Qed.

(** ** A guild whose value is not a mapping *)

(** C10: a progression key that is an integer but whose value is not a
    dict is passed over without a word: the turn of the loop prints
    nothing, writes nothing, raises nothing and leaves the count as it
    was, so that the whole run is the run on the document without that
    entry; a key that is not an integer is passed over too, but with a
    line that says so. *)
Theorem non_dict_guild_skipped_silently k g users :
  py_int k = Some g ->
  is_dict users = false ->
  (forall user_count, migrate_guild k users user_count = ([], Ok user_count)) /\
  (forall l1 l2 json_path db_path,
     migrate_levels (fun _ => Document (JDict (l1 ++ (k, users) :: l2)))
       json_path db_path
     = migrate_levels (fun _ => Document (JDict (l1 ++ l2))) json_path db_path) /\
  (forall k' users' user_count,
     py_int k' = None ->
     migrate_guild k' users' user_count
     = ([Print (MsgSkippingGuild k')], Ok user_count)).
Proof.
  intros Hk Husers.
  assert (forall c, migrate_guild k users c = mret c) as Hskip.
  { intros c. unfold migrate_guild. rewrite Hk. by destruct users. }
  split; [exact Hskip|]. split.
  - intros l1 l2 json_path db_path.
    destruct (reserved_not_int k) as [Hm Hl]; [by rewrite Hk|].
    rewrite !(migrate_levels_document _ _ _ _ eq_refl).
    unfold migrate_document.
    rewrite metadata_without by done.
    rewrite !progression_app, progression_cons by done.
    by rewrite for_items_skip.
  - intros k' users' c Hk'. unfold migrate_guild. by rewrite Hk'.
Qed.

Lemma non_dict_guild_skipped_silently_witness :
  (forall user_count, migrate_guild "10" (JList []) user_count = ([], Ok user_count)) /\
  (forall l1 l2 json_path db_path,
     migrate_levels (fun _ => Document (JDict (l1 ++ ("10", JList []) :: l2)))
       json_path db_path
     = migrate_levels (fun _ => Document (JDict (l1 ++ l2))) json_path db_path) /\
  (forall k' users' user_count,
     py_int k' = None ->
     migrate_guild k' users' user_count
     = ([Print (MsgSkippingGuild k')], Ok user_count)).
Proof.
  apply (non_dict_guild_skipped_silently "10" 10 (JList [])); reflexivity.
Defined.

(** ** Keys that are not integers *)

(** A guild key that is not an integer adds one line to what the user loop
    prints, at the place of its turn, and nothing else. *)
Lemma users_loop_skipping p1 k v p2 c :
  py_int k = None ->
  snd (for_items migrate_guild (p1 ++ (k, v) :: p2) c)
  = snd (for_items migrate_guild (p1 ++ p2) c) /\
  exists ta tb,
    fst (for_items migrate_guild (p1 ++ p2) c) = (ta ++ tb)%list /\
    (fst (for_items migrate_guild (p1 ++ (k, v) :: p2) c)
     = (ta ++ Print (MsgSkippingGuild k) :: tb)%list \/
     fst (for_items migrate_guild (p1 ++ (k, v) :: p2) c) = (ta ++ tb)%list).
Proof.
  intros Hk. rewrite !for_items_app.
  destruct (for_items migrate_guild p1 c) as [ta [c1|ex]].
  - assert (migrate_guild k v c1 = ([Print (MsgSkippingGuild k)], Ok c1)) as Hturn.
    { unfold migrate_guild. by rewrite Hk. }
    rewrite !bind_Ok, for_items_cons, Hturn, bind_Ok.
    destruct (for_items migrate_guild p2 c1) as [tb rb].
    simpl. split; [done|]. exists ta, tb. split; [done|]. by left.
  - simpl. split; [done|]. exists ta, []. rewrite app_nil_r. split; [done|].
    by right.
Qed.

(** C3: a key that is not an integer costs its own entry and nothing else.
    - A guild key of the progression section: the run is the run on the
      document without the entry, result and events, but for the line that
      reports the skip.
    - A user key inside a guild: the run is the run on the document
      without the entry.
    - A guild key of the metadata section: the run is the run on the
      document without the entry. *)
Theorem non_integer_keys_skipped k v :
  py_int k = None ->
  (forall l1 l2 json_path db_path,
     k <> "__meta__" -> k <> "__legacy__" ->
     let m := migrate_levels (fun _ => Document (JDict (l1 ++ (k, v) :: l2)))
                json_path db_path in
     let m' := migrate_levels (fun _ => Document (JDict (l1 ++ l2)))
                 json_path db_path in
     snd m = snd m' /\
     exists t1 t2,
       fst m' = (t1 ++ t2)%list /\
       (fst m = (t1 ++ Print (MsgSkippingGuild k) :: t2)%list \/ fst m = fst m')) /\
  (forall l1 gk u1 u2 l2 json_path db_path,
     gk <> "__meta__" -> gk <> "__legacy__" ->
     migrate_levels
       (fun _ => Document (JDict (l1 ++ (gk, JDict (u1 ++ (k, v) :: u2)) :: l2)))
       json_path db_path
     = migrate_levels
         (fun _ => Document (JDict (l1 ++ (gk, JDict (u1 ++ u2)) :: l2)))
         json_path db_path) /\
  (forall l1 m1 m2 l2 json_path db_path,
     dict_get "__meta__" l1 = None ->
     migrate_levels
       (fun _ => Document (JDict (l1 ++ ("__meta__", JDict (m1 ++ (k, v) :: m2)) :: l2)))
       json_path db_path
     = migrate_levels
         (fun _ => Document (JDict (l1 ++ ("__meta__", JDict (m1 ++ m2)) :: l2)))
         json_path db_path).
Proof.
  intros Hk. split; [|split].
  - intros l1 l2 json_path db_path Hm Hl. cbv zeta.
    rewrite !(migrate_levels_document _ _ _ _ eq_refl).
    unfold migrate_document.
    rewrite metadata_without by done.
    rewrite !progression_app, progression_cons by done.
    destruct (users_loop_skipping (progression l1) k v (progression l2) 0%nat Hk)
      as (Hsnd & ta & tb & Hfst' & Hfst).
    destruct (for_items migrate_guild (progression l1 ++ (k, v) :: progression l2) 0%nat)
      as [tu ru].
    destruct (for_items migrate_guild (progression l1 ++ progression l2) 0%nat)
      as [tu' ru'].
    simpl in Hsnd, Hfst, Hfst'. subst ru' tu'.
    destruct ru as [n|ex].
    + destruct (metadata (l1 ++ l2)) as [| | | | | |meta].
      1-6: (split; [done|];
            exists (prologue json_path db_path ++ ta)%list, (tb ++ interlude n)%list;
            cbn [fst]; rewrite <- !app_assoc; split; [done|];
            destruct Hfst as [->| ->]; [left|right]; by rewrite <- ?app_assoc).
      destruct (for_items migrate_daily_goal meta 0%nat) as [tg [m|ex]].
      * split; [done|].
        exists (prologue json_path db_path ++ ta)%list,
               (tb ++ interlude n ++ tg ++ epilogue m)%list.
        cbn [fst]. rewrite <- !app_assoc. split; [done|].
        destruct Hfst as [->| ->]; [left|right]; by rewrite <- ?app_assoc.
      * split; [done|].
        exists (prologue json_path db_path ++ ta)%list, (tb ++ interlude n ++ tg)%list.
        cbn [fst]. rewrite <- !app_assoc. split; [done|].
        destruct Hfst as [->| ->]; [left|right]; by rewrite <- ?app_assoc.
    + split; [done|].
      exists (prologue json_path db_path ++ ta)%list, tb.
      cbn [fst]. rewrite <- !app_assoc. split; [done|].
      destruct Hfst as [->| ->]; [left|right]; by rewrite <- ?app_assoc.
  - intros l1 gk u1 u2 l2 json_path db_path Hm Hl.
    rewrite !(migrate_levels_document _ _ _ _ eq_refl).
    unfold migrate_document.
    rewrite !(metadata_without gk) by done.
    rewrite !progression_app, !progression_cons by done.
    rewrite (for_items_subst migrate_guild _ gk
               (JDict (u1 ++ (k, v) :: u2)) (JDict (u1 ++ u2))); [done|].
    intros c. unfold migrate_guild. destruct (py_int gk) as [g|]; [|done].
    apply for_items_skip. intros c'. unfold migrate_user. by rewrite Hk.
  - intros l1 m1 m2 l2 json_path db_path Hl1.
    rewrite !(migrate_levels_document _ _ _ _ eq_refl).
    unfold migrate_document.
    rewrite !metadata_at by done.
    rewrite !progression_app, !progression_cons_meta.
    rewrite (for_items_skip migrate_daily_goal m1 k v m2); [done|].
    intros c. unfold migrate_daily_goal. by rewrite Hk.
Qed.

Lemma non_integer_keys_skipped_witness :
  let k := "abc" in
  let v := JDict [("1", JDict [])] in
  (forall l1 l2 json_path db_path,
     k <> "__meta__" -> k <> "__legacy__" ->
     let m := migrate_levels (fun _ => Document (JDict (l1 ++ (k, v) :: l2)))
                json_path db_path in
     let m' := migrate_levels (fun _ => Document (JDict (l1 ++ l2)))
                 json_path db_path in
     snd m = snd m' /\
     exists t1 t2,
       fst m' = (t1 ++ t2)%list /\
       (fst m = (t1 ++ Print (MsgSkippingGuild k) :: t2)%list \/ fst m = fst m')) /\
  (forall l1 gk u1 u2 l2 json_path db_path,
     gk <> "__meta__" -> gk <> "__legacy__" ->
     migrate_levels
       (fun _ => Document (JDict (l1 ++ (gk, JDict (u1 ++ (k, v) :: u2)) :: l2)))
       json_path db_path
     = migrate_levels
         (fun _ => Document (JDict (l1 ++ (gk, JDict (u1 ++ u2)) :: l2)))
         json_path db_path) /\
  (forall l1 m1 m2 l2 json_path db_path,
     dict_get "__meta__" l1 = None ->
     migrate_levels
       (fun _ => Document (JDict (l1 ++ ("__meta__", JDict (m1 ++ (k, v) :: m2)) :: l2)))
       json_path db_path
     = migrate_levels
         (fun _ => Document (JDict (l1 ++ ("__meta__", JDict (m1 ++ m2)) :: l2)))
         json_path db_path).
Proof.
  apply (non_integer_keys_skipped "abc" (JDict [("1", JDict [])])).
  reflexivity.
Defined.

(** ** The reported count *)

Lemma user_event_not_migrated t n :
  Forall user_event t -> ~ In (Print (MsgMigratedUsers n)) t.
Proof.
  intros Hall Hin. rewrite List.Forall_forall in Hall. by apply Hall in Hin.
Qed.

Lemma goal_event_not_migrated t n :
  Forall goal_event t -> ~ In (Print (MsgMigratedUsers n)) t.
Proof.
  intros Hall Hin. rewrite List.Forall_forall in Hall. by apply Hall in Hin.
Qed.

Lemma inserted_profiles_goal_events t :
  Forall goal_event t -> inserted_profiles t = 0%nat.
Proof.
  intros [_ Hnone]%goal_events_calls. unfold inserted_profiles. by rewrite Hnone.
Qed.

(** The count the run prints is the count of the rows it sent, and a run
    that returns prints it. *)
Lemma printed_user_count fs json_path db_path :
  (forall n,
     In (Print (MsgMigratedUsers n)) (fst (migrate_levels fs json_path db_path)) ->
     n = inserted_profiles (fst (migrate_levels fs json_path db_path))) /\
  (snd (migrate_levels fs json_path db_path) = Ok tt ->
   exists_ (fs json_path) = true ->
   In (Print (MsgMigratedUsers
                (inserted_profiles (fst (migrate_levels fs json_path db_path)))))
      (fst (migrate_levels fs json_path db_path))).
Proof.
  destruct (fs json_path) as [| | |data] eqn:Hfs.
  1-3: unfold migrate_levels; rewrite Hfs; simpl; split;
    [by intros n [|[]] | done].
  destruct data as [| | | | | |d].
  1-6: unfold migrate_levels; rewrite Hfs; simpl; split;
    [by intros n [|[]] | done].
  rewrite (migrate_levels_document _ _ _ _ Hfs). unfold migrate_document.
  pose proof (users_loop_events (progression d) 0%nat) as Hu.
  destruct (for_items migrate_guild (progression d) 0%nat) as [tu [n|ex]] eqn:Hloop;
    simpl in Hu.
  2: { cbn [fst snd]. split; [|done]. intros n'.
       rewrite in_app_iff. intros [Hin|Hin].
       - simpl in Hin. repeat destruct Hin as [|Hin]; done.
       - by apply user_event_not_migrated in Hin. }
  apply users_loop_count in Hloop. simpl in Hloop.
  assert (forall rest,
            Forall goal_event rest \/ rest = [] ->
            forall tail, (forall n', ~ In (Print (MsgMigratedUsers n')) tail) ->
            inserted_profiles tail = 0%nat ->
            let t := (prologue json_path db_path ++ tu ++ interlude n ++ rest ++ tail)%list in
            (forall n', In (Print (MsgMigratedUsers n')) t -> n' = inserted_profiles t)
            /\ In (Print (MsgMigratedUsers (inserted_profiles t))) t) as Hshape.
  { intros rest Hrest tail Htail Htail0 t.
    assert (inserted_profiles rest = 0%nat) as Hrest0.
    { destruct Hrest as [Hg| ->]; [by apply inserted_profiles_goal_events|done]. }
    assert (inserted_profiles t = n) as Hcount.
    { unfold t. rewrite !inserted_profiles_app, Hrest0, Htail0.
      change (inserted_profiles (prologue json_path db_path)) with 0%nat.
      change (inserted_profiles (interlude n)) with 0%nat. lia. }
    rewrite Hcount. split.
    - intros n'. unfold t. rewrite !in_app_iff.
      intros [Hin|[Hin|[Hin|[Hin|Hin]]]].
      + simpl in Hin. repeat destruct Hin as [|Hin]; done.
      + by apply user_event_not_migrated in Hin.
      + simpl in Hin. destruct Hin as [[= ->]|[|[]]]; done.
      + destruct Hrest as [Hg| ->]; [|done].
        by apply goal_event_not_migrated in Hin.
      + by apply Htail in Hin.
    - unfold t. rewrite !in_app_iff. right. right. left. by left. }
  destruct (metadata d) as [| | | | | |meta]; cbn [fst snd].
  1-6: (specialize (Hshape [] (or_intror eq_refl) [] (fun _ H => H) eq_refl);
        cbv zeta in Hshape; rewrite !app_nil_r in Hshape;
        split; [apply Hshape|done]).
  pose proof (goals_loop_events meta 0%nat) as Hg.
  destruct (for_items migrate_daily_goal meta 0%nat) as [tg [m|ex]]; simpl in Hg.
  - assert (forall n', ~ In (Print (MsgMigratedUsers n')) (epilogue m)) as Hep.
    { intros n' Hin. simpl in Hin. repeat destruct Hin as [|Hin]; done. }
    specialize (Hshape tg (or_introl Hg) (epilogue m) Hep eq_refl).
    cbn [fst snd]. split; [apply Hshape|]. intros _ _. apply Hshape.
  - specialize (Hshape tg (or_introl Hg) [] (fun _ H => H) eq_refl).
    cbv zeta in Hshape. rewrite !app_nil_r in Hshape.
    cbn [fst snd]. split; [apply Hshape|done].
Qed.

(** After a run that returns, keys apart, the table written from an empty
    database has as many rows as the run sent. *)
Lemma rows_after_run fs json_path db_path :
  snd (migrate_levels fs json_path db_path) = Ok tt ->
  exists_ (fs json_path) = true ->
  NoDup (map Profile.key
           (profile_rows (calls (fst (migrate_levels fs json_path db_path))))) ->
  exists table,
    user_profiles (store_after (migrate_levels fs json_path db_path) Sqlite.empty)
    = Some table /\
    size table = inserted_profiles (fst (migrate_levels fs json_path db_path)).
Proof.
  intros Hok Hfile Hkeys.
  destruct (fs json_path) as [| | |data] eqn:Hfs; try done.
  1-2: unfold migrate_levels in Hok; rewrite Hfs in Hok; discriminate Hok.
  destruct data as [| | | | | |d].
  1-6: unfold migrate_levels in Hok; rewrite Hfs in Hok; discriminate Hok.
  rewrite (migrate_levels_document _ _ _ _ Hfs) in *.
  rewrite store_after_document, Hok. simpl. eexists. split; [reflexivity|].
  rewrite size_put_all; [done|done|]. intros r _. apply lookup_empty.
Qed.

(** C9: the number in the line "Migrated n user profiles." is the number
    of INSERT OR REPLACE statements the run sent for [user_profiles]: a
    skipped guild or user sends none and adds nothing. Every run that
    returns from a file that exists prints the line; and when no two of
    the rows it sent share a key, that number is the number of rows of the
    table the run leaves from an empty database. *)
Theorem reported_user_count fs json_path db_path :
  (forall n,
     In (Print (MsgMigratedUsers n)) (fst (migrate_levels fs json_path db_path)) ->
     n = inserted_profiles (fst (migrate_levels fs json_path db_path))) /\
  (snd (migrate_levels fs json_path db_path) = Ok tt ->
   exists_ (fs json_path) = true ->
   In (Print (MsgMigratedUsers
                (inserted_profiles (fst (migrate_levels fs json_path db_path)))))
      (fst (migrate_levels fs json_path db_path)) /\
   (NoDup (map Profile.key
             (profile_rows (calls (fst (migrate_levels fs json_path db_path))))) ->
    exists table,
      user_profiles (store_after (migrate_levels fs json_path db_path) Sqlite.empty)
      = Some table /\
      size table = inserted_profiles (fst (migrate_levels fs json_path db_path)))).
Proof.
  split; [apply printed_user_count|].
  intros Hok Hfile. split.
  - by apply printed_user_count.
  - by apply rows_after_run.
Qed.

(** ** Defaults *)

Lemma profile_of_defaults user_id guild_id d :
  profile_defaults d (profile_of user_id guild_id d).
Proof.
  unfold profile_defaults, profile_of, column, list_column, get. simpl.
  repeat split; intros ->; reflexivity.
Qed.

Lemma migrate_user_Ok guild_id user_id_str user_id d user_count t n :
  py_int user_id_str = Some user_id ->
  migrate_user guild_id user_id_str (JDict d) user_count = (t, Ok n) ->
  user_profile user_id guild_id (JDict d) = Ok (profile_of user_id guild_id d) /\
  t = [Sql (InsertProfile (profile_of user_id guild_id d))] /\
  n = S user_count.
Proof.
  intros Hk. unfold migrate_user. rewrite Hk.
  destruct (user_profile user_id guild_id (JDict d)) as [r|ex] eqn:Hrow;
    simpl; [|discriminate].
  apply user_profile_Ok in Hrow as ->. by intros [= <- <-].
Qed.

(** C2: the turn of the loop on a user record writes one row, under the
    two integers of its keys, in which every column whose field the record
    lacks holds the documented default; and it does write that row
    whenever the identifiers fit an INTEGER and the fields the record has
    are values SQLite stores. *)
Theorem absent_fields_take_defaults guild_id user_id_str user_id d user_count :
  py_int user_id_str = Some user_id ->
  (forall t n,
     migrate_user guild_id user_id_str (JDict d) user_count = (t, Ok n) ->
     exists r,
       t = [Sql (InsertProfile r)] /\ n = S user_count /\
       Profile.key r = (user_id, guild_id) /\
       profile_defaults d r) /\
  (int64 user_id = true -> int64 guild_id = true -> record_ok d = true ->
   exists r,
     migrate_user guild_id user_id_str (JDict d) user_count
     = ([Sql (InsertProfile r)], Ok (S user_count))).
Proof.
  intros Hk. split.
  - intros t n Hrun.
    destruct (migrate_user_Ok _ _ _ _ _ _ _ Hk Hrun) as (_ & -> & ->).
    exists (profile_of user_id guild_id d).
    repeat split; apply profile_of_defaults.
  - intros Hu Hg Hd. exists (profile_of user_id guild_id d).
    unfold migrate_user. rewrite Hk.
    by rewrite (user_profile_total _ _ _ Hu Hg Hd).
Qed.

Lemma absent_fields_take_defaults_witness :
  let d := [("level", JInt 5); ("total_xp", JInt 1200)] in
  (forall t n,
     migrate_user 10 "1" (JDict d) 0%nat = (t, Ok n) ->
     exists r,
       t = [Sql (InsertProfile r)] /\ n = 1%nat /\
       Profile.key r = (1, 10) /\
       profile_defaults d r) /\
  (int64 1 = true -> int64 10 = true -> record_ok d = true ->
   exists r,
     migrate_user 10 "1" (JDict d) 0%nat = ([Sql (InsertProfile r)], Ok 1%nat)).
Proof.
  apply (absent_fields_take_defaults 10 "1" 1
           [("level", JInt 5); ("total_xp", JInt 1200)] 0%nat).
  reflexivity.
Defined.

(** ** List columns *)

Lemma uint_head d :
  exists c s, NilZero.string_of_uint d = String c s /\ c <> "["%char.
Proof. destruct d; simpl; eexists _, _; (split; [reflexivity|discriminate]). Qed.

Lemma int_repr_head z : exists c s, int_repr z = String c s /\ c <> "["%char.
Proof.
  unfold int_repr. destruct (Z.to_int z) as [d|d]; simpl.
  - apply uint_head.
  - eexists _, _. split; [reflexivity|discriminate].
Qed.

Lemma dec_repr_head m e : exists c s, dec_repr m e = String c s /\ c <> "["%char.
Proof.
  unfold dec_repr. destruct (int_repr_head (Z.of_N m)) as (c & s & -> & Hc).
  cbv zeta. set (n := Z.of_nat (String.length (String c s))).
  destruct ((n + e <=? -4) || (16 <? n + e)).
  { simpl. eexists _, _. split; [reflexivity|done]. }
  destruct (n + e <=? 0) eqn:Hpos.
  { simpl. eexists _, _. split; [reflexivity|discriminate]. }
  destruct (n <=? n + e).
  { simpl. eexists _, _. split; [reflexivity|done]. }
  apply Z.leb_gt in Hpos.
  destruct (Z.to_nat (n + e)) as [|k] eqn:Hk; [lia|].
  simpl. eexists _, _. split; [reflexivity|done].
Qed.

Lemma float_repr_head f : exists c s, float_repr f = String c s /\ c <> "["%char.
Proof.
  destruct f as [|[]|[] m e]; simpl;
    try (eexists _, _; split; [reflexivity|discriminate]).
  apply dec_repr_head.
Qed.

(** Only a list is written with an opening bracket. *)
Lemma dumps_head v :
  is_list v = false -> exists c s, dumps v = String c s /\ c <> "["%char.
Proof.
  destruct v as [|[]|z|f|s|l|d]; simpl; try done; intros _;
    try (eexists _, _; split; [reflexivity|discriminate]).
  - apply int_repr_head.
  - apply float_repr_head.
Qed.

Lemma array_text_dumps v : array_text (Text (dumps v)) <-> is_list v = true.
Proof.
  split.
  - intros [l Heq]. destruct (is_list v) eqn:Hv; [done|].
    destruct (dumps_head v Hv) as (c & s & Hd & Hc).
    injection Heq as Heq. rewrite Hd in Heq. simpl in Heq.
    injection Heq as Heq _. by destruct Hc.
  - destruct v; try discriminate. intros _. by eexists.
Qed.

Lemma array_text_list_column key d :
  array_text (list_column d key) <-> list_or_absent key d.
Proof.
  unfold list_column, list_or_absent, get. rewrite array_text_dumps.
  by destruct (dict_get key d).
Qed.

(** C7, as stated, fails: a record whose [achievements] is present and
    null is accepted, and its row holds the text [null] in that column,
    which is not the text of an array. *)
Lemma null_list_field_not_array :
  exists r,
    user_profile 1 10 (JDict [("achievements", JNull)]) = Ok r /\
    Profile.achievements r = Text "null" /\
    ~ array_text (Profile.achievements r).
Proof.
  eexists. split; [reflexivity|]. split; [reflexivity|].
  intros [l Hl]. simpl in Hl. discriminate Hl.
Qed.

(** C7, amended: in every row either mapper writes, a list column holds
    the serialization of an array exactly when the source field is absent
    or is a list; any other value that is present (null, a number, a
    string, a mapping) is serialized as it is. *)
Theorem list_columns_array_text :
  (forall user_id guild_id d r,
     user_profile user_id guild_id (JDict d) = Ok r ->
     (array_text (Profile.achievements r) <-> list_or_absent "achievements" d) /\
     (array_text (Profile.xp_history r) <-> list_or_absent "xp_history" d)) /\
  (forall guild_id f r,
     daily_goal_row guild_id (JDict f) = Ok r ->
     (array_text (Goal.claimers r) <-> list_or_absent "claimers" f) /\
     (array_text (Goal.bonus_awarded_to r) <-> list_or_absent "bonus_awarded_to" f)).
Proof.
  split.
  - intros user_id guild_id d r ->%user_profile_Ok. simpl.
    split; apply array_text_list_column.
  - intros guild_id f r ->%daily_goal_row_Ok. simpl.
    split; apply array_text_list_column.
Qed.

(** ** Daily goals *)

Lemma goal_of_defaults guild_id f : goal_defaults f (goal_of guild_id f).
Proof.
  unfold goal_defaults, goal_of, column, list_column, get. simpl.
  repeat split; intros ->; reflexivity.
Qed.

Lemma goal_at_replace r db :
  is_Some (daily_goals db) ->
  goal_at (replace_goal r db) (Goal.guild_id r) = Some r.
Proof.
  intros [tbl Htbl]. unfold goal_at, replace_goal. simpl. rewrite Htbl. simpl.
  apply lookup_insert_eq.
Qed.

(** C6: the turn of the goal loop on a metadata entry with an integer key.
    - Without a daily goal (absent, or falsy) it writes nothing and leaves
      the count as it was.
    - With a truthy one, when the turn completes it has sent one INSERT OR
      REPLACE, for a row under the guild's integer, with the documented
      default in every column whose field the goal lacks and the two lists
      serialized, and raised the count by one; that row takes the place of
      whatever row the table held for the guild.
    - It completes whenever the goal is a mapping of values that SQLite
      stores. *)
Theorem daily_goal_entry k g gm goal_count :
  py_int k = Some g ->
  (truthy (get gm "daily_goal" JNull) = false ->
   migrate_daily_goal k (JDict gm) goal_count = ([], Ok goal_count)) /\
  (truthy (get gm "daily_goal" JNull) = true ->
   forall t n,
     migrate_daily_goal k (JDict gm) goal_count = (t, Ok n) ->
     exists f r,
       get gm "daily_goal" JNull = JDict f /\
       t = [Sql (InsertGoal r)] /\ n = S goal_count /\
       Goal.guild_id r = g /\ goal_defaults f r /\
       forall db, is_Some (daily_goals db) -> goal_at (replace_goal r db) g = Some r) /\
  (truthy (get gm "daily_goal" JNull) = true ->
   int64 g = true -> daily_goal_ok (get gm "daily_goal" JNull) = true ->
   exists r,
     migrate_daily_goal k (JDict gm) goal_count
     = ([Sql (InsertGoal r)], Ok (S goal_count))).
Proof.
  intros Hk. unfold migrate_daily_goal. rewrite Hk. simpl.
  split; [|split]; intros Htruthy; rewrite Htruthy.
  - reflexivity.
  - intros t n.
    destruct (daily_goal_row g (get gm "daily_goal" JNull)) as [r|ex] eqn:Hrow;
      simpl; [|discriminate].
    intros [= <- <-].
    destruct (daily_goal_row_dict _ _ _ Hrow) as [f Hf]. rewrite Hf in Hrow.
    apply daily_goal_row_Ok in Hrow as ->.
    exists f, (goal_of g f). repeat split; try done; try apply goal_of_defaults.
    intros db Hdb. by apply (goal_at_replace (goal_of g f)).
  - intros Hg Hok.
    destruct (get gm "daily_goal" JNull) as [| | | | | |f]; try discriminate.
    simpl in Hok.
    apply andb_prop in Hok as [Hok Hc]. apply andb_prop in Hok as [Hok Hp].
    apply andb_prop in Hok as [Hd Ht].
    rewrite (daily_goal_row_total g f Hg Hd Ht Hp Hc). simpl. eauto.
Qed.

Lemma daily_goal_entry_witness :
  let gm := [("daily_goal", JDict [("target", JInt 500)])] in
  (truthy (get gm "daily_goal" JNull) = false ->
   migrate_daily_goal "10" (JDict gm) 0%nat = ([], Ok 0%nat)) /\
  (truthy (get gm "daily_goal" JNull) = true ->
   forall t n,
     migrate_daily_goal "10" (JDict gm) 0%nat = (t, Ok n) ->
     exists f r,
       get gm "daily_goal" JNull = JDict f /\
       t = [Sql (InsertGoal r)] /\ n = 1%nat /\
       Goal.guild_id r = 10 /\ goal_defaults f r /\
       forall db, is_Some (daily_goals db) -> goal_at (replace_goal r db) 10 = Some r) /\
  (truthy (get gm "daily_goal" JNull) = true ->
   int64 10 = true -> daily_goal_ok (get gm "daily_goal" JNull) = true ->
   exists r,
     migrate_daily_goal "10" (JDict gm) 0%nat = ([Sql (InsertGoal r)], Ok 1%nat)).
Proof.
  apply (daily_goal_entry "10" 10 [("daily_goal", JDict [("target", JInt 500)])] 0%nat).
  reflexivity.
Defined.

(** ** Rows the run does not write, rows it writes *)

Lemma In_goal_rows r t :
  In r (goal_rows (calls t)) <-> In (Sql (InsertGoal r)) t.
Proof.
  induction t as [|e t IH]; [done|].
  destruct e as [m|[]]; simpl; rewrite ?IH; try (split; [by right|by intros [|]]).
  split; (intros [Heq|]; [left; congruence|by right]).
Qed.

Lemma In_profile_rows r t :
  In r (profile_rows (calls t)) <-> In (Sql (InsertProfile r)) t.
Proof.
  induction t as [|e t IH]; [done|].
  destruct e as [m|[]]; simpl; rewrite ?IH; try (split; [by right|by intros [|]]).
  split; (intros [Heq|]; [left; congruence|by right]).
Qed.

Lemma user_event_no_goal t r : Forall user_event t -> ~ In (Sql (InsertGoal r)) t.
Proof.
  intros Hall Hin. rewrite List.Forall_forall in Hall. by apply Hall in Hin.
Qed.

Lemma goal_event_no_profile t r :
  Forall goal_event t -> ~ In (Sql (InsertProfile r)) t.
Proof.
  intros Hall Hin. rewrite List.Forall_forall in Hall. by apply Hall in Hin.
Qed.

(** The rows of a run on a document are the rows of its two loops. *)
Lemma migrate_document_goal json_path db_path d r :
  In (Sql (InsertGoal r)) (fst (migrate_document json_path db_path d)) ->
  exists meta,
    metadata d = JDict meta /\
    In (Sql (InsertGoal r)) (fst (for_items migrate_daily_goal meta 0%nat)).
Proof.
  unfold migrate_document.
  pose proof (users_loop_events (progression d) 0%nat) as Hu.
  destruct (for_items migrate_guild (progression d) 0%nat) as [tu [n|ex]];
    simpl in Hu.
  2: { cbn [fst]. rewrite in_app_iff. intros [Hin|Hin].
       - simpl in Hin. repeat destruct Hin as [|Hin]; done.
       - by apply user_event_no_goal in Hin. }
  destruct (metadata d) as [| | | | | |meta]; cbn [fst].
  1-6: (rewrite !in_app_iff; intros [Hin|[Hin|Hin]];
        [ simpl in Hin; repeat destruct Hin as [|Hin]; done
        | by apply user_event_no_goal in Hin
        | simpl in Hin; repeat destruct Hin as [|Hin]; done ]).
  intros H. exists meta. split; [done|].
  destruct (for_items migrate_daily_goal meta 0%nat) as [tg [m|ex]];
    cbn [fst] in *; rewrite !in_app_iff in H;
    repeat destruct H as [H|H]; try done;
    try (by apply user_event_no_goal in H);
    simpl in H; repeat destruct H as [|H]; done.
Qed.

Lemma migrate_document_profile json_path db_path d r :
  In (Sql (InsertProfile r)) (fst (migrate_document json_path db_path d)) ->
  In (Sql (InsertProfile r)) (fst (for_items migrate_guild (progression d) 0%nat)).
Proof.
  unfold migrate_document.
  destruct (for_items migrate_guild (progression d) 0%nat) as [tu [n|ex]].
  2: { cbn [fst]. rewrite in_app_iff. intros [Hin|Hin]; [|done].
       simpl in Hin. repeat destruct Hin as [|Hin]; done. }
  destruct (metadata d) as [| | | | | |meta]; cbn [fst].
  1-6: (rewrite !in_app_iff; intros [Hin|[Hin|Hin]]; [|done|];
        simpl in Hin; repeat destruct Hin as [|Hin]; done).
  pose proof (goals_loop_events meta 0%nat) as Hg.
  destruct (for_items migrate_daily_goal meta 0%nat) as [tg [m|ex]];
    cbn [fst] in *; rewrite !in_app_iff; intros H;
    repeat destruct H as [H|H]; try done;
    try (by apply goal_event_no_profile in H);
    simpl in H; repeat destruct H as [|H]; done.
Qed.

(** C8: a guild that the metadata section of the run's document does not
    name, or names without a daily goal, has after the run the row of
    [daily_goals] it had before, or none as before. *)
Theorem other_daily_goals_untouched fs json_path db_path db g :
  (forall doc, fs json_path = Document doc -> ~ names_goal doc g) ->
  goal_at (store_after (migrate_levels fs json_path db_path) db) g = goal_at db g.
Proof.
  intros Hnot.
  destruct (fs json_path) as [| | |data] eqn:Hfs.
  1-3: by rewrite no_document_store by congruence.
  destruct data as [| | | | | |d].
  1-6: by rewrite no_document_store by congruence.
  rewrite (migrate_levels_document _ _ _ _ Hfs), store_after_document.
  destruct (snd (migrate_document json_path db_path d)); [|apply goal_at_schema].
  rewrite goal_at_writes.
  destruct (last_put _ _ _) as [r|] eqn:Hlast; [|done].
  exfalso. apply last_put_key in Hlast as Hkey. apply last_put_In in Hlast.
  apply In_goal_rows, migrate_document_goal in Hlast as (meta & Hmeta & Hin).
  apply goals_loop_rows in Hin as (k & gm & f & Hk & Hint & Hget & Htruthy & _).
  apply (Hnot _ eq_refl). exists d, meta, k, (JDict gm).
  repeat split; try done; [congruence|].
  simpl. by rewrite Hget.
Qed.

Lemma other_daily_goals_untouched_witness :
  let doc := JDict [("__meta__",
                     JDict [("10", JDict [("daily_goal", JDict [])]);
                            ("11", JDict [("daily_goal", JDict [("target", JInt 5)])])])] in
  let db := {| user_profiles := None;
               daily_goals := Some {[ 10 := goal_of 10 [("target", JInt 7)] ]} |} in
  goal_at (store_after (migrate_levels (fun _ => Document doc) "levels.json"
                          "data/leveling.db") db) 10
  = goal_at db 10.
Proof.
  intros doc db.
  apply (other_daily_goals_untouched (fun _ => Document doc)).
  intros doc' [= <-] (d & meta & k & gm & [= <-] & [= <-] & Hin & Hk & Hgoal).
  destruct Hin as [[= <- <-]|[[= <- <-]|[]]]; [discriminate Hgoal|].
  vm_compute in Hk. discriminate Hk.
Defined.

(** C4: when a run that returns has written the key, the table holds for
    that key the last row the run wrote for it, whatever row the table
    held before; and that row is the row of one user record of the
    document, read on its own: every column whose field the record lacks
    holds its default. *)
Theorem existing_row_replaced fs json_path db_path db k r :
  snd (migrate_levels fs json_path db_path) = Ok tt ->
  last_profile (migrate_levels fs json_path db_path) k = Some r ->
  profile_at (store_after (migrate_levels fs json_path db_path) db) k = Some r /\
  exists doc gk users uk d,
    fs json_path = Document (JDict doc) /\
    In (gk, JDict users) (progression doc) /\ In (uk, JDict d) users /\
    py_int gk = Some (snd k) /\ py_int uk = Some (fst k) /\
    user_profile (fst k) (snd k) (JDict d) = Ok r /\
    profile_defaults d r.
Proof.
  unfold last_profile. intros Hok Hlast.
  destruct (fs json_path) as [| | |data] eqn:Hfs.
  1-3: by rewrite no_document_calls in Hlast by congruence.
  destruct data as [| | | | | |doc].
  1-6: by rewrite no_document_calls in Hlast by congruence.
  rewrite (migrate_levels_document _ _ _ _ Hfs) in *.
  split.
  - rewrite store_after_document, Hok, profile_at_writes. by rewrite Hlast.
  - apply last_put_key in Hlast as Hkey. apply last_put_In in Hlast.
    apply In_profile_rows, migrate_document_profile, users_loop_rows in Hlast
      as (gk & users & uk & d & Hgk & Huk & Hg & Hu & Hrow).
    unfold Profile.key in Hkey. subst k. simpl.
    assert (profile_defaults d r) as Hdef.
    { rewrite (user_profile_Ok _ _ _ _ Hrow). apply profile_of_defaults. }
    exists doc, gk, users, uk, d. repeat (split; [done|]). exact Hdef.
Qed.

Lemma existing_row_replaced_witness :
  let doc := JDict [("10", JDict [("1", JDict [("total_xp", JInt 1200)])])] in
  let m := migrate_levels (fun _ => Document doc) "levels.json" "data/leveling.db" in
  let db := {| user_profiles :=
                 Some {[ (1, 10) := profile_of 1 10 [("level", JInt 5)] ]};
               daily_goals := Some ∅ |} in
  let r := profile_of 1 10 [("total_xp", JInt 1200)] in
  profile_at (store_after m db) (1, 10) = Some r /\
  exists doc' gk users uk d,
    Document doc = Document (JDict doc') /\
    In (gk, JDict users) (progression doc') /\ In (uk, JDict d) users /\
    py_int gk = Some 10 /\ py_int uk = Some 1 /\
    user_profile 1 10 (JDict d) = Ok r /\
    profile_defaults d r.
Proof.
  intros doc m db r.
  apply (existing_row_replaced (fun _ => Document doc) "levels.json"
           "data/leveling.db" db (1, 10) r); reflexivity.
Defined.

(** ** Idempotence *)

Lemma for_items_total {S} (body : string -> json -> S -> M S) l s :
  (forall k v s', In (k, v) l -> exists t s'', body k v s' = (t, Ok s'')) ->
  exists t s', for_items body l s = (t, Ok s').
Proof.
  revert s. induction l as [|[k v] l IH]; intros s Hbody.
  - by exists [], s.
  - destruct (Hbody k v s (or_introl eq_refl)) as (t1 & s1 & Hb).
    destruct (IH s1) as (t2 & s2 & Hl).
    { intros k' v' s' Hin. apply Hbody. by right. }
    exists (t1 ++ t2)%list, s2.
    by rewrite for_items_cons, Hb, bind_Ok, Hl.
Qed.

Lemma users_loop_total data c :
  forallb guild_ok data = true ->
  exists t n, for_items migrate_guild data c = (t, Ok n).
Proof.
  intros Hall. apply for_items_total. intros gk users c' Hin.
  rewrite forallb_forall in Hall. apply Hall in Hin.
  unfold guild_ok in Hin. simpl in Hin. unfold migrate_guild.
  destruct (py_int gk) as [g|]; [|by eexists _, _].
  destruct users as [| | | | | |users]; try by eexists _, _.
  apply for_items_total. intros uk ud c'' Hu.
  unfold users_ok in Hin. rewrite forallb_forall in Hin. apply Hin in Hu.
  unfold migrate_user. destruct (py_int uk) as [u|]; [|by eexists _, _].
  apply andb_prop in Hu as [Hids Hrec]. apply andb_prop in Hids as [Hg Hu].
  destruct ud as [| | | | | |d]; try discriminate.
  rewrite (user_profile_total _ _ _ Hu Hg Hrec). by eexists _, _.
Qed.

Lemma goals_loop_total meta c :
  forallb guild_meta_ok meta = true ->
  exists t n, for_items migrate_daily_goal meta c = (t, Ok n).
Proof.
  intros Hall. apply for_items_total. intros k gm c' Hin.
  rewrite forallb_forall in Hall. apply Hall in Hin.
  unfold guild_meta_ok in Hin. simpl in Hin. unfold migrate_daily_goal.
  destruct (py_int k) as [g|]; [|by eexists _, _].
  destruct gm as [| | | | | |gm]; try discriminate. simpl.
  destruct (truthy (get gm "daily_goal" JNull)); [|by eexists _, _].
  simpl in Hin. apply andb_prop in Hin as [Hg Hok].
  destruct (get gm "daily_goal" JNull) as [| | | | | |f]; try discriminate.
  simpl in Hok.
  apply andb_prop in Hok as [Hok Hc]. apply andb_prop in Hok as [Hok Hp].
  apply andb_prop in Hok as [Hd Ht].
  rewrite (daily_goal_row_total g f Hg Hd Ht Hp Hc). by eexists _, _.
Qed.

(** A well-formed document is migrated to the end. *)
Lemma well_formed_returns fs json_path db_path doc :
  fs json_path = Document doc ->
  well_formed doc = true ->
  snd (migrate_levels fs json_path db_path) = Ok tt.
Proof.
  intros Hfs Hwf. destruct doc as [| | | | | |d]; try discriminate.
  rewrite (migrate_levels_document _ _ _ _ Hfs). unfold migrate_document.
  simpl in Hwf. apply andb_prop in Hwf as [Hu Hm].
  destruct (users_loop_total _ 0%nat Hu) as (tu & n & ->).
  destruct (metadata d) as [| | | | | |meta]; try discriminate.
  by destruct (goals_loop_total _ 0%nat Hm) as (tg & m & ->).
Qed.

(** C1: the migration of a well-formed document returns, and run a second
    time on the database the first run left from an empty one, it leaves
    that database as it is, row for row. *)
Theorem migration_idempotent fs json_path db_path doc :
  fs json_path = Document doc ->
  well_formed doc = true ->
  snd (migrate_levels fs json_path db_path) = Ok tt /\
  store_after (migrate_levels fs json_path db_path)
    (store_after (migrate_levels fs json_path db_path) Sqlite.empty)
  = store_after (migrate_levels fs json_path db_path) Sqlite.empty.
Proof.
  intros Hfs Hwf. split.
  - by apply (well_formed_returns _ _ _ doc).
  - apply store_after_twice.
Qed.

Lemma migration_idempotent_witness :
  let m := migrate_levels (fun _ => Document levels_json) "levels.json"
             "data/leveling.db" in
  snd m = Ok tt /\
  store_after m (store_after m Sqlite.empty) = store_after m Sqlite.empty.
Proof.
  intros m.
  apply (migration_idempotent (fun _ => Document levels_json) "levels.json"
           "data/leveling.db" levels_json); reflexivity.
Defined.

(** ** The scenario of the specification *)

(** The run on the scenario's document: one user row, the skip of guild
    "abc" reported, one daily-goal row, counts of one and one. *)
Example scenario_run :
  migrate_levels (fun _ => Document levels_json) "levels.json" "data/leveling.db"
  = ([Print (MsgLoading "levels.json");
      Print (MsgConnecting "data/leveling.db");
      Sql (Connect "data/leveling.db");
      Sql CreateUserProfiles;
      Sql CreateDailyGoals;
      Print MsgMigratingUsers;
      Sql (InsertProfile
             {| Profile.user_id := 1;
                Profile.guild_id := 10;
                Profile.level := Integer 5;
                Profile.total_xp := Integer 1200;
                Profile.xp_to_next_level := Integer 100;
                Profile.total_commands_used := Integer 0;
                Profile.total_messages := Integer 0;
                Profile.last_daily := Null;
                Profile.daily_streak := Integer 0;
                Profile.last_message_timestamp := Null;
                Profile.achievements := Text "[]";
                Profile.best_rank := Integer 999;
                Profile.previous_rank := Integer 999;
                Profile.rank_improvement := Integer 0;
                Profile.images_shared := Integer 0;
                Profile.long_messages := Integer 0;
                Profile.links_shared := Integer 0;
                Profile.goals_completed := Integer 0;
                Profile.boost_days := Integer 0;
                Profile.first_boost_date := Null;
                Profile.xp_history := Text "[]" |});
      Print (MsgSkippingGuild "abc");
      Print (MsgMigratedUsers 1);
      Print MsgMigratingGoals;
      Sql (InsertGoal
             {| Goal.guild_id := 10;
                Goal.date := Text "2024-01-01";
                Goal.target := Integer 500;
                Goal.progress := Integer 120;
                Goal.claimers := Text (String "[" (String dquote (String "1" (String dquote "]"))));
                Goal.completed := Integer 0;
                Goal.bonus_awarded_to := Text "[]" |});
      Print (MsgMigratedGoals 1);
      Sql Commit;
      Sql Close;
      Print MsgComplete],
     Ok tt).
Proof. reflexivity. Qed.

(** The lines of that run, as printed. *)
Example scenario_output :
  omap (fun e => match e with Print m => Some (render m) | Sql _ => None end)
    (fst (migrate_levels (fun _ => Document levels_json) "levels.json"
            "data/leveling.db"))
  = ["Loading levels from levels.json...";
     "Connecting to database data/leveling.db...";
     "Migrating users...";
     "Skipping invalid guild ID: abc";
     "Migrated 1 user profiles.";
     "Migrating daily goals...";
     "Migrated 1 daily goals.";
     "Migration complete."].
Proof. reflexivity. Qed.

(** A few values of the builtins. *)
Example py_int_values :
  map py_int [" -1_000 "; "010"; "+7"; "abc"; ""; "1__0"; "1_"; "1 2"; "1.0"; "__meta__"]
  = [Some (-1000); Some 10; Some 7; None; None; None; None; None; None; None].
Proof. reflexivity. Qed.

Example float_repr_values :
  map float_repr [FDec false 1 (-4); FDec false 1 (-5); FDec false 1 16;
                  FDec false 1 15; FDec true 0 0; FDec false 125 (-1); FNan]
  = ["0.0001"; "1e-05"; "1e+16"; "1000000000000000.0"; "-0.0"; "12.5"; "NaN"].
Proof. reflexivity. Qed.

Example dumps_values :
  map dumps [JNull; JList []; JList [JInt (-5); JBool true; JStr "a\b"];
             JDict [("k", JList [JNull])]]
  = ["null"; "[]";
     "[-5, true, " +:+ String dquote "a\\b" +:+ String dquote "]";
     "{" +:+ String dquote "k" +:+ String dquote ": [null]}"].
Proof. reflexivity. Qed.

(* ===================================================================== *)
(** * Further properties of the script *)
(* ===================================================================== *)

(** ** The calls of a run *)

Lemma calls_document json_path db_path d :
  exists ws,
    forallb is_insert ws = true /\
    calls (fst (migrate_document json_path db_path d))
    = (Connect db_path :: CreateUserProfiles :: CreateDailyGoals :: ws
       ++ match snd (migrate_document json_path db_path d) with
          | Ok _ => [Commit; Close]
          | Raise _ => []
          end)%list.
Proof.
  unfold migrate_document.
  pose proof (users_loop_events (progression d) 0%nat) as Hu.
  destruct (for_items migrate_guild (progression d) 0%nat) as [tu [n|ex]];
    simpl in Hu; apply user_events_calls in Hu as [Hu _]; cbn [fst snd].
  2: { exists (calls tu). by rewrite calls_prologue, app_nil_r. }
  destruct (metadata d) as [| | | | | |meta]; cbn [fst snd];
    try (exists (calls tu);
         by rewrite calls_prologue, calls_app, !app_nil_r).
  pose proof (goals_loop_events meta 0%nat) as Hg.
  destruct (for_items migrate_daily_goal meta 0%nat) as [tg [m|ex]];
    simpl in Hg; apply goal_events_calls in Hg as [Hg _]; cbn [fst snd];
    exists (calls tu ++ calls tg)%list;
    rewrite forallb_app, Hu, Hg; (split; [done|]).
  - by rewrite calls_prologue, calls_app, calls_interlude, calls_app,
      calls_epilogue, app_assoc.
  - by rewrite calls_prologue, calls_app, calls_interlude, app_nil_r.
Qed.

Lemma calls_of_run fs json_path db_path :
  ((forall d, fs json_path <> Document (JDict d)) ->
   calls (fst (migrate_levels fs json_path db_path)) = []) /\
  ((exists d, fs json_path = Document (JDict d)) ->
   exists ws,
     forallb is_insert ws = true /\
     calls (fst (migrate_levels fs json_path db_path))
     = (Connect db_path :: CreateUserProfiles :: CreateDailyGoals :: ws
        ++ match snd (migrate_levels fs json_path db_path) with
           | Ok _ => [Commit; Close]
           | Raise _ => []
           end)%list).
Proof.
  split.
  - apply no_document_calls.
  - intros [d Hd]. rewrite (migrate_levels_document _ _ _ _ Hd).
    apply calls_document.
Qed.

(** X1: the calls a run makes on the store. When the file does not hold a
    JSON object there are none. Otherwise the run connects to [db_path],
    sends the two CREATE TABLE IF NOT EXISTS, then only INSERT OR REPLACE
    statements, and then a commit and a close exactly when it returns: a
    run that raises neither commits nor closes its connection. *)
Theorem call_protocol fs json_path db_path :
  ((forall d, fs json_path <> Document (JDict d)) ->
   calls (fst (migrate_levels fs json_path db_path)) = []) /\
  ((exists d, fs json_path = Document (JDict d)) ->
   exists ws,
     forallb is_insert ws = true /\
     calls (fst (migrate_levels fs json_path db_path))
     = (Connect db_path :: CreateUserProfiles :: CreateDailyGoals :: ws
        ++ match snd (migrate_levels fs json_path db_path) with
           | Ok _ => [Commit; Close]
           | Raise _ => []
           end)%list).
Proof. apply calls_of_run. Qed.

(** ** A run that raises *)

(** The rows of the file after a run: the last row the run wrote for the
    key when the run returned, the row the file had otherwise. *)
Lemma profile_at_after fs json_path db_path db k :
  profile_at (store_after (migrate_levels fs json_path db_path) db) k
  = match snd (migrate_levels fs json_path db_path),
          last_profile (migrate_levels fs json_path db_path) k with
    | Ok _, Some r => Some r
    | _, _ => profile_at db k
    end.
Proof.
  unfold last_profile.
  destruct (fs json_path) as [| | |data] eqn:Hfs.
  1-3: rewrite no_document_store, no_document_calls by congruence;
    by destruct (snd _).
  destruct data as [| | | | | |d].
  1-6: rewrite no_document_store, no_document_calls by congruence;
    by destruct (snd _).
  rewrite (migrate_levels_document _ _ _ _ Hfs), store_after_document.
  destruct (snd (migrate_document json_path db_path d)).
  - apply profile_at_writes.
  - apply profile_at_schema.
Qed.

Lemma goal_at_after fs json_path db_path db g :
  goal_at (store_after (migrate_levels fs json_path db_path) db) g
  = match snd (migrate_levels fs json_path db_path),
          last_goal (migrate_levels fs json_path db_path) g with
    | Ok _, Some r => Some r
    | _, _ => goal_at db g
    end.
Proof.
  unfold last_goal.
  destruct (fs json_path) as [| | |data] eqn:Hfs.
  1-3: rewrite no_document_store, no_document_calls by congruence;
    by destruct (snd _).
  destruct data as [| | | | | |d].
  1-6: rewrite no_document_store, no_document_calls by congruence;
    by destruct (snd _).
  rewrite (migrate_levels_document _ _ _ _ Hfs), store_after_document.
  destruct (snd (migrate_document json_path db_path d)).
  - apply goal_at_writes.
  - apply goal_at_schema.
Qed.

(** X2: a run that raises leaves every row of both tables as it was: the
    rows it had written before the exception are never committed. *)
Theorem failed_run_keeps_rows fs json_path db_path db e :
  snd (migrate_levels fs json_path db_path) = Raise e ->
  (forall k,
     profile_at (store_after (migrate_levels fs json_path db_path) db) k
     = profile_at db k) /\
  (forall g,
     goal_at (store_after (migrate_levels fs json_path db_path) db) g
     = goal_at db g).
Proof.
  intros Hraise. split.
  - intros k. by rewrite profile_at_after, Hraise.
  - intros g. by rewrite goal_at_after, Hraise.
Qed.

Lemma failed_run_keeps_rows_witness :
  let m := migrate_levels (fun _ => Document broken_json) "levels.json"
             "data/leveling.db" in
  inserted_profiles (fst m) = 1%nat /\
  (forall k, profile_at (store_after m Sqlite.empty) k = profile_at Sqlite.empty k) /\
  (forall g, goal_at (store_after m Sqlite.empty) g = goal_at Sqlite.empty g).
Proof.
  split; [reflexivity|].
  apply (failed_run_keeps_rows (fun _ => Document broken_json) "levels.json"
           "data/leveling.db" Sqlite.empty AttributeError).
  reflexivity.
Defined.

(** ** What a run prints *)

Lemma user_event_In t e : Forall user_event t -> In e t -> user_event e.
Proof. rewrite List.Forall_forall. auto. Qed.

Lemma goal_event_In t e : Forall goal_event t -> In e t -> goal_event e.
Proof. rewrite List.Forall_forall. auto. Qed.

(** X3: the line "Migration complete." is printed exactly by the runs that
    found their file and returned, and those have committed; a run on a
    missing file returns without it. *)
Theorem complete_line fs json_path db_path :
  (In (Print MsgComplete) (fst (migrate_levels fs json_path db_path)) <->
   snd (migrate_levels fs json_path db_path) = Ok tt /\
   exists_ (fs json_path) = true) /\
  (In (Print MsgComplete) (fst (migrate_levels fs json_path db_path)) ->
   In Commit (calls (fst (migrate_levels fs json_path db_path)))).
Proof.
  destruct (fs json_path) as [| | |data] eqn:Hfs.
  1-3: unfold migrate_levels; rewrite Hfs; simpl;
    split; [split; [by intros [|[]] | by intros []] | by intros [|[]]].
  destruct data as [| | | | | |d].
  1-6: unfold migrate_levels; rewrite Hfs; simpl;
    split; [split; [by intros [|[]] | by intros []] | by intros [|[]]].
  rewrite (migrate_levels_document _ _ _ _ Hfs). unfold migrate_document.
  pose proof (users_loop_events (progression d) 0%nat) as Hu.
  destruct (for_items migrate_guild (progression d) 0%nat) as [tu [n|ex]];
    simpl in Hu; cbn [fst snd].
  2: { assert (~ In (Print MsgComplete) (prologue json_path db_path ++ tu)) as Hno.
       { rewrite in_app_iff. intros [Hin|Hin].
         - simpl in Hin. repeat destruct Hin as [|Hin]; done.
         - by apply (user_event_In _ _ Hu) in Hin. }
       split; [split; [done | by intros []] | done]. }
  assert (forall rest,
            ~ In (Print MsgComplete) rest ->
            ~ In (Print MsgComplete)
              (prologue json_path db_path ++ tu ++ interlude n ++ rest)) as Hno.
  { intros rest Hrest. rewrite !in_app_iff. intros [Hin|[Hin|[Hin|Hin]]].
    - simpl in Hin. repeat destruct Hin as [|Hin]; done.
    - by apply (user_event_In _ _ Hu) in Hin.
    - simpl in Hin. repeat destruct Hin as [|Hin]; done.
    - done. }
  destruct (metadata d) as [| | | | | |meta]; cbn [fst snd];
    try (specialize (Hno [] (fun H => H)); rewrite app_nil_r in Hno;
         split; [split; [done | by intros []] | done]).
  pose proof (goals_loop_events meta 0%nat) as Hg.
  destruct (for_items migrate_daily_goal meta 0%nat) as [tg [m|ex]];
    simpl in Hg; cbn [fst snd].
  - split; [split; [done|] | ].
    + intros _. rewrite !in_app_iff. do 4 right. simpl. auto.
    + intros _. rewrite calls_prologue, calls_app, calls_interlude, calls_app,
        calls_epilogue.
      do 3 right. rewrite !in_app_iff. right. right. by left.
  - specialize (Hno tg).
    split; [split; [|by intros []] | ]; intros Hin; exfalso; apply Hno; try done;
      intros Hin'; by apply (goal_event_In _ _ Hg) in Hin'.
Qed.

Lemma skipped_guilds_app t1 t2 :
  skipped_guilds (t1 ++ t2) = (skipped_guilds t1 ++ skipped_guilds t2)%list.
Proof. apply omap_app. Qed.

(** The turns of the user loop only write rows. *)
Lemma migrate_user_no_skip guild_id users c :
  skipped_guilds (fst (for_items (migrate_user guild_id) users c)) = [].
Proof.
  revert c. induction users as [|[k v] users IH]; intros c; [done|].
  rewrite for_items_cons.
  assert (skipped_guilds (fst (migrate_user guild_id k v c)) = []) as Hturn.
  { unfold migrate_user. destruct (py_int k) as [u|]; [|done].
    by destruct (user_profile u guild_id v). }
  destruct (migrate_user guild_id k v c) as [t1 [c1|ex]]; [|done].
  rewrite bind_Ok. cbn [fst] in *. by rewrite skipped_guilds_app, Hturn, IH.
Qed.

Lemma users_loop_skipped data c t n :
  for_items migrate_guild data c = (t, Ok n) ->
  skipped_guilds t = non_integer_keys data.
Proof.
  revert c t n. induction data as [|[k v] data IH]; intros c t n.
  - by intros [= <- _].
  - rewrite for_items_cons.
    destruct (migrate_guild k v c) as [t1 [c1|ex]] eqn:Hturn; [|discriminate].
    rewrite bind_Ok. destruct (for_items migrate_guild data c1) as [t2 r2] eqn:Hrest.
    simpl. intros [= <- ->]. rewrite skipped_guilds_app, (IH _ _ _ Hrest).
    unfold non_integer_keys. simpl. unfold migrate_guild in Hturn.
    destruct (py_int k) as [g|].
    + assert (skipped_guilds t1 = []) as ->; [|done].
      destruct v; try (by injection Hturn as <- _).
      pose proof (migrate_user_no_skip g d c) as Hno. by rewrite Hturn in Hno.
    + by injection Hturn as <- _.
Qed.

Lemma goal_events_no_skip t : Forall goal_event t -> skipped_guilds t = [].
Proof.
  induction 1 as [|e t He _ IH]; [done|].
  destruct e as [[]|[]]; try done.
Qed.

(** X4: a run that returns has reported, in the order of the document, the
    keys of the progression section that are not integers, those and no
    other: neither the reserved keys, nor user keys, nor keys of the
    metadata section. *)
Theorem skipped_guilds_reported fs json_path db_path d :
  fs json_path = Document (JDict d) ->
  snd (migrate_levels fs json_path db_path) = Ok tt ->
  skipped_guilds (fst (migrate_levels fs json_path db_path))
  = non_integer_keys (progression d).
Proof.
  intros Hfs. rewrite (migrate_levels_document _ _ _ _ Hfs).
  unfold migrate_document.
  destruct (for_items migrate_guild (progression d) 0%nat) as [tu [n|ex]] eqn:Hu;
    [|discriminate].
  apply users_loop_skipped in Hu.
  destruct (metadata d) as [| | | | | |meta]; try discriminate.
  pose proof (goals_loop_events meta 0%nat) as Hg.
  destruct (for_items migrate_daily_goal meta 0%nat) as [tg [m|ex]];
    [|discriminate].
  intros _. cbn [fst] in *. apply goal_events_no_skip in Hg.
  rewrite !skipped_guilds_app, Hu, Hg. simpl. by rewrite app_nil_r.
Qed.

Lemma skipped_guilds_reported_witness :
  skipped_guilds
    (fst (migrate_levels (fun _ => Document levels_json) "levels.json"
            "data/leveling.db"))
  = ["abc"].
Proof.
  apply (skipped_guilds_reported (fun _ => Document levels_json) "levels.json"
           "data/leveling.db"
           [("__meta__",
             JDict [("10", JDict [("daily_goal",
                                   JDict [("date", JStr "2024-01-01");
                                          ("target", JInt 500);
                                          ("progress", JInt 120);
                                          ("claimers", JList [JStr "1"]);
                                          ("completed", JBool false);
                                          ("bonus_awarded_to", JList [])])])]);
            ("10", JDict [("1", JDict [("level", JInt 5); ("total_xp", JInt 1200)])]);
            ("abc", JDict [("2", JDict [])])]); reflexivity.
Defined.

(** X5: the number in the line "Migrated n daily goals." is the number of
    INSERT OR REPLACE statements the run sent for [daily_goals], and every
    run that found its file and returned has printed the line. *)
Theorem reported_goal_count fs json_path db_path :
  (forall n,
     In (Print (MsgMigratedGoals n)) (fst (migrate_levels fs json_path db_path)) ->
     n = inserted_goals (fst (migrate_levels fs json_path db_path))) /\
  (snd (migrate_levels fs json_path db_path) = Ok tt ->
   exists_ (fs json_path) = true ->
   In (Print (MsgMigratedGoals
                (inserted_goals (fst (migrate_levels fs json_path db_path)))))
      (fst (migrate_levels fs json_path db_path))).
Proof.
  destruct (fs json_path) as [| | |data] eqn:Hfs.
  1-3: unfold migrate_levels; rewrite Hfs; simpl; split;
    [by intros n [|[]] | done].
  destruct data as [| | | | | |d].
  1-6: unfold migrate_levels; rewrite Hfs; simpl; split;
    [by intros n [|[]] | done].
  rewrite (migrate_levels_document _ _ _ _ Hfs). unfold migrate_document.
  pose proof (users_loop_events (progression d) 0%nat) as Hu.
  destruct (for_items migrate_guild (progression d) 0%nat) as [tu [n|ex]];
    simpl in Hu; cbn [fst snd].
  2: { split; [|done]. intros n'. rewrite in_app_iff. intros [Hin|Hin].
       - simpl in Hin. repeat destruct Hin as [|Hin]; done.
       - by apply (user_event_In _ _ Hu) in Hin. }
  assert (forall rest n',
            ~ In (Print (MsgMigratedGoals n')) rest ->
            ~ In (Print (MsgMigratedGoals n'))
              (prologue json_path db_path ++ tu ++ interlude n ++ rest)) as Hno.
  { intros rest n' Hrest. rewrite !in_app_iff. intros [Hin|[Hin|[Hin|Hin]]].
    - simpl in Hin. repeat destruct Hin as [|Hin]; done.
    - by apply (user_event_In _ _ Hu) in Hin.
    - simpl in Hin. repeat destruct Hin as [|Hin]; done.
    - done. }
  destruct (metadata d) as [| | | | | |meta]; cbn [fst snd];
    try (split; [|done]; intros n' Hin; exfalso;
         apply (Hno [] n' (fun H => H)); by rewrite app_nil_r).
  pose proof (goals_loop_events meta 0%nat) as Hg.
  destruct (for_items migrate_daily_goal meta 0%nat) as [tg [m|ex]] eqn:Hloop;
    simpl in Hg; cbn [fst snd].
  - apply goals_loop_count in Hloop. simpl in Hloop.
    pose proof (user_events_calls _ Hu) as [_ Hu0].
    assert (inserted_goals
              (prologue json_path db_path ++ tu ++ interlude n ++ tg ++ epilogue m)
            = m) as Hcount.
    { rewrite !inserted_goals_app. unfold inserted_goals at 2. rewrite Hu0.
      change (inserted_goals (prologue json_path db_path)) with 0%nat.
      change (inserted_goals (interlude n)) with 0%nat.
      change (inserted_goals (epilogue m)) with 0%nat. simpl. lia. }
    rewrite Hcount. split.
    + intros n'. rewrite !in_app_iff. intros [Hin|[Hin|[Hin|[Hin|Hin]]]].
      * simpl in Hin. repeat destruct Hin as [|Hin]; done.
      * by apply (user_event_In _ _ Hu) in Hin.
      * simpl in Hin. repeat destruct Hin as [|Hin]; done.
      * by apply (goal_event_In _ _ Hg) in Hin.
      * simpl in Hin. destruct Hin as [[= ->]|Hin]; [done|].
        repeat destruct Hin as [|Hin]; done.
    + intros _ _. rewrite !in_app_iff. do 4 right. by left.
  - split; [|done]. intros n' Hin. exfalso. apply (Hno tg n'); [|done].
    intros Hin'. by apply (goal_event_In _ _ Hg) in Hin'.
Qed.

(** ** The deprecated section *)

Lemma progression_cons_legacy v l :
  progression (("__legacy__", v) :: l) = progression l.
Proof.
  unfold progression. rewrite dict_del_cons_ne by discriminate.
  by rewrite dict_del_cons_eq.
Qed.

(** X6: the deprecated section has no part in a run: whatever value the
    document has under "__legacy__", the run is the run on the document
    without that entry, events and result. *)
Theorem legacy_section_ignored l1 v l2 json_path db_path :
  migrate_levels (fun _ => Document (JDict (l1 ++ ("__legacy__", v) :: l2)))
    json_path db_path
  = migrate_levels (fun _ => Document (JDict (l1 ++ l2))) json_path db_path.
Proof.
  rewrite !(migrate_levels_document _ _ _ _ eq_refl). unfold migrate_document.
  rewrite metadata_without by discriminate.
  by rewrite !progression_app, progression_cons_legacy.
Qed.

(** ** Rows of daily goals, rows of other users *)

(** X7: when a run that returns has written a guild's daily goal, the
    table holds for that guild the last row the run wrote for it, whatever
    row it held before; that row is the row of the truthy daily goal of a
    metadata entry whose key is the guild's integer, with the defaults in
    the columns whose fields the goal lacks. *)
Theorem existing_goal_replaced fs json_path db_path db g r :
  snd (migrate_levels fs json_path db_path) = Ok tt ->
  last_goal (migrate_levels fs json_path db_path) g = Some r ->
  goal_at (store_after (migrate_levels fs json_path db_path) db) g = Some r /\
  exists doc meta k gm f,
    fs json_path = Document (JDict doc) /\ metadata doc = JDict meta /\
    In (k, JDict gm) meta /\ py_int k = Some g /\
    get gm "daily_goal" JNull = JDict f /\
    daily_goal_row g (JDict f) = Ok r /\
    goal_defaults f r.
Proof.
  intros Hok Hlast. split.
  { by rewrite goal_at_after, Hok, Hlast. }
  unfold last_goal in Hlast.
  destruct (fs json_path) as [| | |data] eqn:Hfs.
  1-3: by rewrite no_document_calls in Hlast by congruence.
  destruct data as [| | | | | |doc].
  1-6: by rewrite no_document_calls in Hlast by congruence.
  rewrite (migrate_levels_document _ _ _ _ Hfs) in *.
  apply last_put_key in Hlast as Hkey. apply last_put_In in Hlast.
  apply In_goal_rows, migrate_document_goal in Hlast as (meta & Hmeta & Hin).
  apply goals_loop_rows in Hin as (k & gm & f & Hk & Hint & Hget & _ & Hrow).
  subst g.
  assert (goal_defaults f r) as Hdef.
  { rewrite (daily_goal_row_Ok _ _ _ Hrow). apply goal_of_defaults. }
  exists doc, meta, k, gm, f. repeat (split; [done|]). exact Hdef.
Qed.

Lemma existing_goal_replaced_witness :
  let doc := JDict [("__meta__",
                     JDict [("10", JDict [("daily_goal", JDict [("target", JInt 5)])])])] in
  let m := migrate_levels (fun _ => Document doc) "levels.json" "data/leveling.db" in
  let db := {| user_profiles := None;
               daily_goals :=
                 Some {[ 10 := goal_of 10 [("target", JInt 7); ("date", JStr "x")] ]} |} in
  let r := goal_of 10 [("target", JInt 5)] in
  goal_at (store_after m db) 10 = Some r /\
  exists doc' meta k gm f,
    Document doc = Document (JDict doc') /\ metadata doc' = JDict meta /\
    In (k, JDict gm) meta /\ py_int k = Some 10 /\
    get gm "daily_goal" JNull = JDict f /\
    daily_goal_row 10 (JDict f) = Ok r /\
    goal_defaults f r.
Proof.
  intros doc m db r.
  apply (existing_goal_replaced (fun _ => Document doc) "levels.json"
           "data/leveling.db" db 10 r); reflexivity.
Defined.

(** X8: a key under which the document has no user record (no guild key
    and user key with its two integers) has after the run the row of
    [user_profiles] it had before, or none as before: the run deletes
    nothing and touches no other user's row. *)
Theorem other_profiles_untouched fs json_path db_path db k :
  (forall doc, fs json_path = Document doc -> ~ names_profile doc k) ->
  profile_at (store_after (migrate_levels fs json_path db_path) db) k
  = profile_at db k.
Proof.
  intros Hnot. rewrite profile_at_after.
  destruct (snd (migrate_levels fs json_path db_path)); [|done].
  destruct (last_profile _ k) as [r|] eqn:Hlast; [|done].
  exfalso. unfold last_profile in Hlast.
  destruct (fs json_path) as [| | |data] eqn:Hfs.
  1-3: by rewrite no_document_calls in Hlast by congruence.
  destruct data as [| | | | | |doc].
  1-6: by rewrite no_document_calls in Hlast by congruence.
  rewrite (migrate_levels_document _ _ _ _ Hfs) in *.
  apply last_put_key in Hlast as Hkey. apply last_put_In in Hlast.
  apply In_profile_rows, migrate_document_profile, users_loop_rows in Hlast
    as (gk & users & uk & d & Hgk & Huk & Hg & Hu & _).
  apply (Hnot _ eq_refl). subst k.
  exists doc, gk, users, uk, (JDict d). by repeat split.
Qed.

Lemma other_profiles_untouched_witness :
  let doc := JDict [("10", JDict [("1", JDict []); ("x", JDict [])])] in
  let db := {| user_profiles := Some {[ (2, 10) := profile_of 2 10 [("level", JInt 9)] ]};
               daily_goals := None |} in
  profile_at (store_after (migrate_levels (fun _ => Document doc) "levels.json"
                             "data/leveling.db") db) (2, 10)
  = profile_at db (2, 10).
Proof.
  intros doc db.
  apply (other_profiles_untouched (fun _ => Document doc)).
  intros doc' [= <-] (d & gk & users & uk & ud & [= <-] & Hg & Hu & _ & Huk).
  destruct Hg as [[= <- <-]|[]].
  destruct Hu as [[= <- <-]|[[= <- <-]|[]]]; vm_compute in Huk; discriminate Huk.
Defined.

(** ** Keys written in decimal *)







(** ** When a run returns *)






(** ** Runs one after the other *)

Section Commute.
Context {K : Type} `{Countable K} {V : Type} (key : V -> K).

Lemma put_all_comm rows1 rows2 (m : gmap K V) :
  (forall k, last_put key k rows1 = None \/ last_put key k rows2 = None) ->
  put_all key rows1 (put_all key rows2 m) = put_all key rows2 (put_all key rows1 m).
Proof.
  intros Hdisj. apply map_eq. intros k. rewrite !lookup_put_all.
  destruct (Hdisj k) as [-> | ->]; by destruct (last_put key k _).
Qed.
End Commute.

Lemma writes_comm ws1 ws2 db :
  (forall k, last_put Profile.key k (profile_rows ws1) = None \/
             last_put Profile.key k (profile_rows ws2) = None) ->
  (forall g, last_put Goal.guild_id g (goal_rows ws1) = None \/
             last_put Goal.guild_id g (goal_rows ws2) = None) ->
  writes ws1 (writes ws2 db) = writes ws2 (writes ws1 db).
Proof.
  intros Hp Hg. apply database_eq; simpl.
  - destruct (user_profiles db); simpl; [|done]. by rewrite put_all_comm.
  - destruct (daily_goals db); simpl; [|done]. by rewrite put_all_comm.
Qed.

(** What a run does to the file: nothing, or the tables created and the
    rows of a list of statements written, a list whose last rows are among
    the last rows of the run. *)
Lemma store_after_cases fs json_path db_path :
  (forall db, store_after (migrate_levels fs json_path db_path) db = db) \/
  exists ws,
    (forall db,
       store_after (migrate_levels fs json_path db_path) db = writes ws (schema db)) /\
    (forall k, last_put Profile.key k (profile_rows ws) = None \/
               last_put Profile.key k (profile_rows ws)
               = last_profile (migrate_levels fs json_path db_path) k) /\
    (forall g, last_put Goal.guild_id g (goal_rows ws) = None \/
               last_put Goal.guild_id g (goal_rows ws)
               = last_goal (migrate_levels fs json_path db_path) g).
Proof.
  destruct (fs json_path) as [| | |data] eqn:Hfs.
  1-3: left; intros db; apply no_document_store; congruence.
  destruct data as [| | | | | |d].
  1-6: left; intros db; apply no_document_store; congruence.
  right. rewrite (migrate_levels_document _ _ _ _ Hfs).
  destruct (snd (migrate_document json_path db_path d)) eqn:Hsnd.
  - exists (calls (fst (migrate_document json_path db_path d))).
    split; [|split; intros; by right].
    intros db. by rewrite store_after_document, Hsnd.
  - exists []. split; [|split; intros; by left].
    intros db. rewrite store_after_document, Hsnd. by rewrite writes_nil.
Qed.

(** X11: two runs that write no key in common, in either table, can be
    made in either order: the file they leave is the same. *)
Theorem disjoint_runs_commute fs1 path1 fs2 path2 db_path db :
  (forall k, last_profile (migrate_levels fs1 path1 db_path) k = None \/
             last_profile (migrate_levels fs2 path2 db_path) k = None) ->
  (forall g, last_goal (migrate_levels fs1 path1 db_path) g = None \/
             last_goal (migrate_levels fs2 path2 db_path) g = None) ->
  store_after (migrate_levels fs2 path2 db_path)
    (store_after (migrate_levels fs1 path1 db_path) db)
  = store_after (migrate_levels fs1 path1 db_path)
      (store_after (migrate_levels fs2 path2 db_path) db).
Proof.
  intros Hp Hg.
  destruct (store_after_cases fs1 path1 db_path) as [Hid1|(ws1 & Hw1 & Hp1 & Hg1)];
    [by rewrite !Hid1|].
  destruct (store_after_cases fs2 path2 db_path) as [Hid2|(ws2 & Hw2 & Hp2 & Hg2)];
    [by rewrite !Hid2|].
  rewrite !Hw1, !Hw2, !schema_writes. apply writes_comm.
  - intros k. destruct (Hp1 k) as [|E1]; [by right|].
    destruct (Hp2 k) as [|E2]; [by left|].
    rewrite E1, E2. destruct (Hp k); auto.
  - intros g. destruct (Hg1 g) as [|E1]; [by right|].
    destruct (Hg2 g) as [|E2]; [by left|].
    rewrite E1, E2. destruct (Hg g); auto.
Qed.

Lemma disjoint_runs_commute_witness :
  let fs1 := fun _ : string =>
    Document (JDict [("10", JDict [("1", JDict [("level", JInt 5)])])]) in
  let fs2 := fun _ : string =>
    Document (JDict [("10", JDict [("2", JDict [])]);
                     ("__meta__", JDict [("10", JDict [("daily_goal",
                                                        JDict [("target", JInt 3)])])])]) in
  store_after (migrate_levels fs2 "b.json" "data/leveling.db")
    (store_after (migrate_levels fs1 "a.json" "data/leveling.db") Sqlite.empty)
  = store_after (migrate_levels fs1 "a.json" "data/leveling.db")
      (store_after (migrate_levels fs2 "b.json" "data/leveling.db") Sqlite.empty).
Proof.
  intros fs1 fs2.
  apply (disjoint_runs_commute fs1 "a.json" fs2 "b.json" "data/leveling.db" Sqlite.empty).
  - intros k. destruct (decide (k = (1, 10))) as [->|Hne]; [by right|].
    left. apply last_put_None. intros r Hin. vm_compute in Hin.
    destruct Hin as [<-|[]]. intros Heq. apply Hne. by rewrite <- Heq.
  - intros g. by left.
Defined.

(** X12: run again any number of times on the same file, whatever it
    holds, from any database, the migration leaves what the first run
    left. *)
Theorem rerun_changes_nothing fs json_path db_path db n :
  Nat.iter (S n) (store_after (migrate_levels fs json_path db_path)) db
  = store_after (migrate_levels fs json_path db_path) db.
Proof.
  induction n as [|n IH]; [reflexivity|].
  change (Nat.iter (S (S n)) ?f db) with (f (Nat.iter (S n) f db)).
  rewrite IH. apply store_after_twice.
Qed.

(** ** The command line *)

(** X13: run from the command line, the script reads the file named by
    its first argument, or levels.json without one, ignores any further
    argument, and connects to no other database than data/leveling.db. *)
Theorem main_paths argv fs :
  main argv fs
  = migrate_levels fs (match argv with
                       | _ :: json_file :: _ => json_file
                       | _ => "levels.json"
                       end) "data/leveling.db" /\
  (forall db_path,
     In (Connect db_path) (calls (fst (main argv fs))) ->
     db_path = "data/leveling.db").
Proof.
  assert (main argv fs
          = migrate_levels fs (match argv with
                               | _ :: json_file :: _ => json_file
                               | _ => "levels.json"
                               end) "data/leveling.db") as Hmain.
  { unfold main. by destruct argv as [|a0 [|a1 rest]]. }
  split; [exact Hmain|]. rewrite Hmain. intros db_path Hin.
  set (json_file := match argv with _ :: j :: _ => j | _ => "levels.json" end) in *.
  destruct (calls_of_run fs json_file "data/leveling.db") as [Hnone Hsome].
  destruct (fs json_file) as [| | |data] eqn:Hfs.
  1-3: by rewrite Hnone in Hin by congruence.
  destruct data as [| | | | | |d].
  1-6: by rewrite Hnone in Hin by congruence.
  destruct (Hsome (ex_intro _ d eq_refl)) as (ws & Hws & Hcalls).
  rewrite Hcalls in Hin. destruct Hin as [[= ->]|[|[|Hin]]]; try done.
  apply in_app_iff in Hin as [Hin|Hin].
  - rewrite forallb_forall in Hws. by apply Hws in Hin.
  - destruct (snd _); simpl in Hin; by repeat destruct Hin as [|Hin].
Qed.

(** ** The rows of a run, read off the document *)

Lemma migrate_user_row guild_id uk ud c t n :
  migrate_user guild_id uk ud c = (t, Ok n) ->
  profile_rows (calls t) = match record_row guild_id (uk, ud) with
                           | Some r => [r]
                           | None => []
                           end.
Proof.
  unfold migrate_user, record_row. cbn [fst snd].
  destruct (py_int uk) as [u|]; [|by intros [= <- _]].
  destruct (user_profile u guild_id ud) as [r|ex] eqn:Hrow; [|discriminate].
  destruct (user_profile_dict _ _ _ _ Hrow) as [d ->].
  apply user_profile_Ok in Hrow as ->. by intros [= <- _].
Qed.

Lemma user_loop_rows guild_id users c t n :
  for_items (migrate_user guild_id) users c = (t, Ok n) ->
  profile_rows (calls t) = omap (record_row guild_id) users.
Proof.
  revert c t n. induction users as [|[uk ud] users IH]; intros c t n.
  - by intros [= <- _].
  - rewrite for_items_cons.
    destruct (migrate_user guild_id uk ud c) as [t1 [c1|ex]] eqn:Hturn;
      [|discriminate].
    rewrite bind_Ok.
    destruct (for_items (migrate_user guild_id) users c1) as [t2 r2] eqn:Hrest.
    simpl. intros [= <- ->].
    rewrite calls_app, profile_rows_app, (IH _ _ _ Hrest).
    rewrite (migrate_user_row _ _ _ _ _ _ Hturn).
    by destruct (record_row guild_id (uk, ud)).
Qed.

Lemma guild_loop_rows data c t n :
  for_items migrate_guild data c = (t, Ok n) ->
  profile_rows (calls t) = document_profiles data.
Proof.
  revert c t n. induction data as [|[gk v] data IH]; intros c t n.
  - by intros [= <- _].
  - rewrite for_items_cons.
    destruct (migrate_guild gk v c) as [t1 [c1|ex]] eqn:Hturn; [|discriminate].
    rewrite bind_Ok.
    destruct (for_items migrate_guild data c1) as [t2 r2] eqn:Hrest.
    simpl. intros [= <- ->].
    rewrite calls_app, profile_rows_app, (IH _ _ _ Hrest).
    unfold document_profiles. simpl. f_equal.
    unfold migrate_guild in Hturn. unfold guild_rows. simpl.
    destruct (py_int gk) as [g|]; [|by injection Hturn as <- _].
    destruct v; try (by injection Hturn as <- _).
    by apply user_loop_rows in Hturn.
Qed.

Lemma migrate_daily_goal_row k gm c t n :
  migrate_daily_goal k gm c = (t, Ok n) ->
  goal_rows (calls t) = match meta_row (k, gm) with
                        | Some r => [r]
                        | None => []
                        end.
Proof.
  unfold migrate_daily_goal, meta_row. cbn [fst snd].
  destruct (py_int k) as [g|]; [|by intros [= <- _]].
  destruct gm as [| | | | | |d]; try discriminate. simpl.
  destruct (truthy (get d "daily_goal" JNull)) eqn:Htruthy.
  - destruct (daily_goal_row g (get d "daily_goal" JNull)) as [r|ex] eqn:Hrow;
      [|discriminate].
    destruct (daily_goal_row_dict _ _ _ Hrow) as [f Hf]. rewrite Hf in *.
    apply daily_goal_row_Ok in Hrow as ->.
    destruct f; [discriminate Htruthy|]. by intros [= <- _].
  - intros [= <- _].
    destruct (get d "daily_goal" JNull) as [| | | | | |f]; try done.
    by destruct f.
Qed.

Lemma goal_loop_rows meta c t n :
  for_items migrate_daily_goal meta c = (t, Ok n) ->
  goal_rows (calls t) = document_goals meta.
Proof.
  revert c t n. induction meta as [|[k gm] meta IH]; intros c t n.
  - by intros [= <- _].
  - rewrite for_items_cons.
    destruct (migrate_daily_goal k gm c) as [t1 [c1|ex]] eqn:Hturn;
      [|discriminate].
    rewrite bind_Ok.
    destruct (for_items migrate_daily_goal meta c1) as [t2 r2] eqn:Hrest.
    simpl. intros [= <- ->].
    rewrite calls_app, goal_rows_app, (IH _ _ _ Hrest).
    rewrite (migrate_daily_goal_row _ _ _ _ _ Hturn).
    unfold document_goals. cbn [omap list_omap].
    by destruct (meta_row (k, gm)).
Qed.

Lemma profile_rows_setup db_path ws :
  profile_rows (Connect db_path :: CreateUserProfiles :: CreateDailyGoals :: ws)
  = profile_rows ws.
Proof. reflexivity. Qed.

Lemma goal_rows_setup db_path ws :
  goal_rows (Connect db_path :: CreateUserProfiles :: CreateDailyGoals :: ws)
  = goal_rows ws.
Proof. reflexivity. Qed.

(** The run on a document that returns, by its two loops. *)
Lemma returned_document json_path db_path d :
  snd (migrate_document json_path db_path d) = Ok tt ->
  exists meta tu n tg m,
    metadata d = JDict meta /\
    for_items migrate_guild (progression d) 0%nat = (tu, Ok n) /\
    for_items migrate_daily_goal meta 0%nat = (tg, Ok m) /\
    fst (migrate_document json_path db_path d)
    = (prologue json_path db_path ++ tu ++ interlude n ++ tg ++ epilogue m)%list.
Proof.
  unfold migrate_document.
  destruct (for_items migrate_guild (progression d) 0%nat) as [tu [n|ex]];
    [|discriminate].
  destruct (metadata d) as [| | | | | |meta]; try discriminate.
  destruct (for_items migrate_daily_goal meta 0%nat) as [tg [m|ex]] eqn:Hg;
    [|discriminate].
  intros _. by exists meta, tu, n, tg, m.
Qed.

Lemma returned_document_rows json_path db_path d meta :
  snd (migrate_document json_path db_path d) = Ok tt ->
  metadata d = JDict meta ->
  profile_rows (calls (fst (migrate_document json_path db_path d)))
  = document_profiles (progression d) /\
  goal_rows (calls (fst (migrate_document json_path db_path d)))
  = document_goals meta.
Proof.
  intros (meta' & tu & n & tg & m & Hmeta & Hu & Hg & ->)%returned_document Hm.
  assert (meta' = meta) as -> by congruence.
  pose proof (users_loop_events (progression d) 0%nat) as Eu.
  pose proof (goals_loop_events meta 0%nat) as Eg.
  rewrite Hu in Eu. rewrite Hg in Eg. simpl in Eu, Eg.
  apply user_events_calls in Eu as [_ Eu]. apply goal_events_calls in Eg as [_ Eg].
  apply guild_loop_rows in Hu. apply goal_loop_rows in Hg.
  rewrite calls_prologue, calls_app, calls_interlude, calls_app, calls_epilogue.
  rewrite profile_rows_setup, goal_rows_setup.
  rewrite !profile_rows_app, !goal_rows_app, Hu, Hg, Eu, Eg. simpl.
  by rewrite !app_nil_r.
Qed.

(** X14: what a run that returns has written is a function of the
    document: the rows it sent for [user_profiles] are the rows of the user
    records under integer keys in guilds under integer keys, in the order
    of the document, the rows it sent for [daily_goals] are the rows of the
    truthy daily goals under integer keys, and the file it leaves holds
    both tables, with those rows written in that order over what the
    tables held. *)
Theorem rows_of_document fs json_path db_path d :
  fs json_path = Document (JDict d) ->
  snd (migrate_levels fs json_path db_path) = Ok tt ->
  exists meta,
    metadata d = JDict meta /\
    profile_rows (calls (fst (migrate_levels fs json_path db_path)))
    = document_profiles (progression d) /\
    goal_rows (calls (fst (migrate_levels fs json_path db_path)))
    = document_goals meta /\
    forall db,
      store_after (migrate_levels fs json_path db_path) db
      = {| user_profiles :=
             Some (put_all Profile.key (document_profiles (progression d))
                     (default ∅ (user_profiles db)));
           daily_goals :=
             Some (put_all Goal.guild_id (document_goals meta)
                     (default ∅ (daily_goals db))) |}.
Proof.
  intros Hfs. rewrite (migrate_levels_document _ _ _ _ Hfs). intros Hok.
  destruct (returned_document _ _ _ Hok) as (meta & _ & _ & _ & _ & Hmeta & _).
  destruct (returned_document_rows _ _ _ _ Hok Hmeta) as [Hp Hg].
  exists meta. repeat (split; [done|]). intros db.
  rewrite store_after_document, Hok. unfold writes. rewrite Hp, Hg.
  reflexivity.
Qed.

Lemma rows_of_document_witness :
  let m := migrate_levels (fun _ => Document levels_json) "levels.json"
             "data/leveling.db" in
  exists meta,
    metadata [("__meta__",
               JDict [("10", JDict [("daily_goal",
                                     JDict [("date", JStr "2024-01-01");
                                            ("target", JInt 500);
                                            ("progress", JInt 120);
                                            ("claimers", JList [JStr "1"]);
                                            ("completed", JBool false);
                                            ("bonus_awarded_to", JList [])])])]);
              ("10", JDict [("1", JDict [("level", JInt 5); ("total_xp", JInt 1200)])]);
              ("abc", JDict [("2", JDict [])])]
    = JDict meta /\
    profile_rows (calls (fst m))
    = [profile_of 1 10 [("level", JInt 5); ("total_xp", JInt 1200)]] /\
    goal_rows (calls (fst m)) = document_goals meta /\
    forall db,
      store_after m db
      = {| user_profiles :=
             Some (put_all Profile.key
                     [profile_of 1 10 [("level", JInt 5); ("total_xp", JInt 1200)]]
                     (default ∅ (user_profiles db)));
           daily_goals :=
             Some (put_all Goal.guild_id (document_goals meta)
                     (default ∅ (daily_goals db))) |}.
Proof.
  intros m.
  apply (rows_of_document (fun _ => Document levels_json) "levels.json"
           "data/leveling.db"); reflexivity.
Defined.

(** X15: the two counts a run that returns prints are counts of entries of
    the document: the user entries under integer keys in guilds under
    integer keys, and the metadata entries under integer keys with a truthy
    daily goal. *)
Theorem counts_of_document fs json_path db_path d meta :
  fs json_path = Document (JDict d) ->
  metadata d = JDict meta ->
  snd (migrate_levels fs json_path db_path) = Ok tt ->
  In (Print (MsgMigratedUsers (List.length (document_profiles (progression d)))))
     (fst (migrate_levels fs json_path db_path)) /\
  In (Print (MsgMigratedGoals (List.length (document_goals meta))))
     (fst (migrate_levels fs json_path db_path)).
Proof.
  intros Hfs Hmeta. rewrite (migrate_levels_document _ _ _ _ Hfs). intros Hok.
  destruct (returned_document _ _ _ Hok)
    as (meta' & tu & n & tg & m & Hmeta' & Hu & Hg & ->).
  assert (meta' = meta) as -> by congruence.
  pose proof (users_loop_events (progression d) 0%nat) as Eu.
  pose proof (goals_loop_events meta 0%nat) as Eg.
  rewrite Hu in Eu. rewrite Hg in Eg. simpl in Eu, Eg.
  apply users_loop_count in Hu as Hn. apply goals_loop_count in Hg as Hm.
  apply guild_loop_rows in Hu. apply goal_loop_rows in Hg.
  unfold inserted_profiles in Hn. unfold inserted_goals in Hm.
  rewrite Hu in Hn. rewrite Hg in Hm. simpl in Hn, Hm. subst n m.
  rewrite !in_app_iff. split.
  - right. right. left. by left.
  - do 4 right. by left.
Qed.

Lemma counts_of_document_witness :
  let doc := [("__meta__", JDict [("10", JDict [("daily_goal", JDict [("target", JInt 5)])]);
                                  ("11", JDict [])]);
              ("10", JDict [("1", JDict []); ("x", JDict []); ("2", JDict [])]);
              ("y", JDict [("3", JDict [])]);
              ("12", JList [])] in
  let m := migrate_levels (fun _ => Document (JDict doc)) "levels.json"
             "data/leveling.db" in
  In (Print (MsgMigratedUsers 2)) (fst m) /\ In (Print (MsgMigratedGoals 1)) (fst m).
Proof.
  intros doc m.
  apply (counts_of_document (fun _ => Document (JDict doc)) "levels.json"
           "data/leveling.db" doc
           [("10", JDict [("daily_goal", JDict [("target", JInt 5)])]);
            ("11", JDict [])]); reflexivity.
Defined.
